(** * Home Assistant adapters: MQTT alarm control panel and Litter-Robot vacuum

  A shallow embedding of
    - homeassistant/components/mqtt/alarm_control_panel.py  (Module [Alarm])
    - homeassistant/components/litterrobot/vacuum.py        (Module [Vacuum])
  together with the small amount of Python semantics both rely on
  (Modules [Py], [Re] and [Eff]).

  Conventions.
    - A Python [str] is a [string]: a sequence of code points below 256.
    - An optional argument or an optional configuration key is an [option].
    - A method with side effects is a function in the monad [Eff.M]: it
      threads the entity and the journal of what it did to its
      collaborators (logger, MQTT client, host, cloud SDK), and it either
      returns or raises. *)

From Stdlib Require Import ZArith Ascii String List Bool Lia.
From stdpp Require Import base countable gmap strings.
Import ListNotations.

Local Open Scope string_scope.
Local Open Scope list_scope.

(* ===================================================================== *)
(** ** Python values, truthiness, [and] / [or] *)
(* ===================================================================== *)

Module Py.

(** The values that flow through [_validate_code]: [None], a [bool], a [str]. *)
Inductive pyval : Type :=
| PyNone
| PyBool (b : bool)
| PyStr (s : string).

(** [bool(v)]: [None] and the empty string are false. *)
Definition truthy (v : pyval) : bool :=
  match v with
  | PyNone => false
  | PyBool b => b
  | PyStr s => negb (String.eqb s "")
  end.

(** [a or b] and [a and b] return one of their operands. *)
Definition py_or (a b : pyval) : pyval := if truthy a then a else b.
Definition py_and (a b : pyval) : pyval := if truthy a then b else a.

(** An optional string ([str | None]) as a value. *)
Definition of_option (o : option string) : pyval :=
  match o with
  | None => PyNone
  | Some s => PyStr s
  end.

(** [a == b] on these values; values of different types are unequal. *)
Definition py_eq (a b : pyval) : bool :=
  match a, b with
  | PyNone, PyNone => true
  | PyBool x, PyBool y => Bool.eqb x y
  | PyStr x, PyStr y => String.eqb x y
  | _, _ => false
  end.

(** [v is None]. *)
Definition is_none (v : pyval) : bool :=
  match v with
  | PyNone => true
  | _ => false
  end.

(** [x in (t0, t1, ...)] on strings: equality with some member. *)
Definition py_in (x : string) (t : list string) : bool :=
  existsb (String.eqb x) t.

End Py.

(* ===================================================================== *)
(** ** The fragment of [re] used by [code_format] *)
(* ===================================================================== *)

Module Re.

(** One item of a pattern: [^], [$], a character class, a class under [+]. *)
Inductive atom : Type :=
| Bol
| Eol
| Class (p : ascii -> bool)
| Plus (p : ascii -> bool).

(** [\d] on code points below 256 is exactly [0-9]. *)
Definition is_digit (c : ascii) : bool :=
  match c with
  | "0" | "1" | "2" | "3" | "4" | "5" | "6" | "7" | "8" | "9" => true
  | _ => false
  end%char.

Definition newline : string := String "010"%char EmptyString.

(** Without [re.MULTILINE], [$] matches at the end of the string and just
    before a newline that is the last character. *)
Definition at_eol (s : string) : bool := String.eqb s "" || String.eqb s newline.

(** [p+] after its first character: greedily more of [p], backtracking to
    the continuation [k]. *)
Fixpoint plus_rest (p : ascii -> bool) (k : string -> bool) (s : string) : bool :=
  match s with
  | String c r => if p c then plus_rest p k r || k s else k s
  | EmptyString => k s
  end.

(** Match the pattern at the current position; [pos0] tells whether that
    position is the start of the string (where [^] matches). *)
Fixpoint match_here (pat : list atom) (pos0 : bool) (s : string) : bool :=
  match pat with
  | [] => true
  | Bol :: pat' => pos0 && match_here pat' pos0 s
  | Eol :: pat' => at_eol s && match_here pat' pos0 s
  | Class p :: pat' =>
      match s with
      | String c r => p c && match_here pat' false r
      | EmptyString => false
      end
  | Plus p :: pat' =>
      match s with
      | String c r => p c && plus_rest p (match_here pat' false) r
      | EmptyString => false
      end
  end.

(** [re.search]: the first position, left to right, where the pattern matches. *)
Fixpoint search_from (pat : list atom) (pos0 : bool) (s : string) : bool :=
  match_here pat pos0 s ||
  match s with
  | String _ r => search_from pat false r
  | EmptyString => false
  end.

(** [re.search(pat, s)] as a truth value. *)
Definition search (pat : list atom) (s : string) : bool := search_from pat true s.

(** The pattern ["^\\d+$"]. *)
Definition DIGITS : list atom := [Bol; Plus is_digit; Eol].

Fixpoint all_digits (s : string) : bool :=
  match s with
  | String c r => is_digit c && all_digits r
  | EmptyString => true
  end.


End Re.

(* ===================================================================== *)
(** ** Effects: a journal of calls to collaborators, and exceptions *)
(* ===================================================================== *)

Module Eff.

(** How a call ends: it returns a value or raises. *)
Inductive outcome (A : Type) : Type :=
| Returned (a : A)
| Raised (exn : string).

Arguments Returned {A} a.
Arguments Raised {A} exn.

(** A computation over a world [W]; what was done before a raise stays done. *)
Definition M (W A : Type) : Type := W -> outcome A * W.

Definition ret {W A : Type} (a : A) : M W A := fun w => (Returned a, w).

Definition raise {W A : Type} (exn : string) : M W A := fun w => (Raised exn, w).

Definition bind {W A B : Type} (m : M W A) (k : A -> M W B) : M W B :=
  fun w =>
    match m w with
    | (Returned a, w') => k a w'
    | (Raised exn, w') => (Raised exn, w')
    end.

Definition gets {W A : Type} (f : W -> A) : M W A := fun w => (Returned (f w), w).

Definition modify {W : Type} (f : W -> W) : M W unit := fun w => (Returned tt, f w).

(** The condition [b and not m()]: [m] runs only when [b] holds. *)
Definition and_not {W : Type} (b : bool) (m : M W Py.pyval) : M W bool :=
  if b then bind m (fun v => ret (negb (Py.truthy v))) else ret false.

Module Notations.
Notation "'let*' x ':=' m 'in' k" := (bind m (fun x => k))
  (at level 10, x name, m at level 100, k at level 200).
Notation "'let*' '_' ':=' m 'in' k" := (bind m (fun _ => k))
  (at level 10, m at level 100, k at level 200).
End Notations.

End Eff.

(* ===================================================================== *)
(** ** mqtt/alarm_control_panel.py *)
(* ===================================================================== *)

Module Alarm.
Import Py Eff Eff.Notations.

Definition REMOTE_CODE : string := "REMOTE_CODE".
Definition REMOTE_CODE_TEXT : string := "REMOTE_CODE_TEXT".

(** Modelled from the spec: the ten alarm state strings of
    homeassistant/const.py, which is not among the sources; section 4.2 of
    the specification lists them. No proof below depends on their spelling. *)
Definition STATE_ALARM_DISARMED : string := "disarmed".
Definition STATE_ALARM_ARMED_HOME : string := "armed_home".
Definition STATE_ALARM_ARMED_AWAY : string := "armed_away".
Definition STATE_ALARM_ARMED_NIGHT : string := "armed_night".
Definition STATE_ALARM_ARMED_VACATION : string := "armed_vacation".
Definition STATE_ALARM_ARMED_CUSTOM_BYPASS : string := "armed_custom_bypass".
Definition STATE_ALARM_PENDING : string := "pending".
Definition STATE_ALARM_ARMING : string := "arming".
Definition STATE_ALARM_DISARMING : string := "disarming".
Definition STATE_ALARM_TRIGGERED : string := "triggered".

(** Modelled from the spec: [alarm.CodeFormat] of
    homeassistant/components/alarm_control_panel, not among the sources;
    the specification names its two members NUMBER and TEXT. *)
Inductive CodeFormat : Type :=
| NUMBER
| TEXT.

(** The configuration after [PLATFORM_SCHEMA_MODERN]: a field per key, named
    as the constant that holds the key, so that [self._config[CONF_X]] reads
    [CONF_X cfg]. Keys that are [vol.Optional] without a default are options
    ([cv.string] does not accept [None], so a present code is a string);
    [CONF_QOS] and [CONF_ENCODING] come from [mqtt.MQTT_BASE_SCHEMA]. *)
Record Config : Type := {
  CONF_CODE : option string;
  CONF_CODE_ARM_REQUIRED : bool;
  CONF_CODE_DISARM_REQUIRED : bool;
  CONF_CODE_TRIGGER_REQUIRED : bool;
  CONF_COMMAND_TEMPLATE : string;
  CONF_COMMAND_TOPIC : string;
  CONF_NAME : string;
  CONF_PAYLOAD_ARM_AWAY : string;
  CONF_PAYLOAD_ARM_HOME : string;
  CONF_PAYLOAD_ARM_NIGHT : string;
  CONF_PAYLOAD_ARM_VACATION : string;
  CONF_PAYLOAD_ARM_CUSTOM_BYPASS : string;
  CONF_PAYLOAD_DISARM : string;
  CONF_PAYLOAD_TRIGGER : string;
  CONF_RETAIN : bool;
  CONF_STATE_TOPIC : string;
  CONF_VALUE_TEMPLATE : option string;
  CONF_QOS : Z;
  CONF_ENCODING : string
}.

(** The attributes of [MqttAlarm] that the module reads and writes. *)
Record MqttAlarm : Type := {
  _config : Config;
  _state : option string
}.

(** What the entity does to its collaborators. *)
Inductive Event : Type :=
| Warning (fmt : string) (arg : string)
| AsyncPublish (topic payload : string) (qos : Z) (retain : bool) (encoding : string)
| AsyncWriteHaState (state : option string).

Record World : Type := {
  self : MqttAlarm;
  journal : list Event
}.

(** The collaborators of the entity that live outside this module:
    - [value_template tpl raw] is
      [MqttValueTemplate(tpl).async_render_with_possible_json_value(raw)];
    - [command_template tpl action code] is
      [MqttCommandTemplate(tpl).async_render(None, variables={"action": action, "code": code})];
    - [publish_error topic payload] is the exception with which
      [MqttEntity.async_publish] ends for that message, if it raises. *)
Class Runtime : Type := {
  value_template : option string -> string -> string;
  command_template : string -> string -> option string -> string;
  publish_error : string -> string -> option string
}.

(** The world with one more entry at the end of the journal. *)
Definition noted (e : Event) (w : World) : World :=
  {| self := self w; journal := journal w ++ [e] |}.

Definition emit (e : Event) : M World unit := modify (noted e).

(** [_LOGGER.warning(fmt, arg)]. *)
Definition _LOGGER_warning (fmt arg : string) : M World unit := emit (Warning fmt arg).

(** [self._state = v]. *)
Definition set__state (v : option string) : M World unit :=
  modify (fun w =>
            {| self := {| _config := _config (self w); _state := v |};
               journal := journal w |}).

(** [self.async_write_ha_state()]: the host is handed the current [state]. *)
Definition async_write_ha_state : M World unit :=
  let* st := gets (fun w => _state (self w)) in
  emit (AsyncWriteHaState st).

Section WithRuntime.
Context {R : Runtime}.

(** [self.async_publish(topic, payload, qos, retain, encoding)]. *)
Definition async_publish (topic payload : string) (qos : Z) (retain : bool)
    (encoding : string) : M World unit :=
  let* _ := emit (AsyncPublish topic payload qos retain encoding) in
  match publish_error topic payload with
  | Some exn => raise exn
  | None => ret tt
  end.

(** [message_received(msg)], with [msg.payload] as argument. *)
Definition message_received (msg_payload : string) : M World unit :=
  let* cfg := gets (fun w => _config (self w)) in
  let payload := value_template (CONF_VALUE_TEMPLATE cfg) msg_payload in
  if negb (py_in payload
             [ STATE_ALARM_DISARMED;
               STATE_ALARM_ARMED_HOME;
               STATE_ALARM_ARMED_AWAY;
               STATE_ALARM_ARMED_NIGHT;
               STATE_ALARM_ARMED_VACATION;
               STATE_ALARM_ARMED_CUSTOM_BYPASS;
               STATE_ALARM_PENDING;
               STATE_ALARM_ARMING;
               STATE_ALARM_DISARMING;
               STATE_ALARM_TRIGGERED ])
  then _LOGGER_warning "Received unexpected payload: %s" msg_payload
  else
    let* _ := set__state (Some payload) in
    async_write_ha_state.

(** The [state] property. *)
Definition state (s : MqttAlarm) : option string := _state s.

(** The [code_format] property. [isinstance(code, str)] holds for every
    configured code. *)
Definition code_format (s : MqttAlarm) : option CodeFormat :=
  match CONF_CODE (_config s) with
  | None => None
  | Some code =>
      if String.eqb code REMOTE_CODE || (true && Re.search Re.DIGITS code)
      then Some NUMBER
      else Some TEXT
  end.

(** The [code_arm_required] property. *)
Definition code_arm_required (s : MqttAlarm) : bool :=
  let code_required := CONF_CODE_ARM_REQUIRED (_config s) in
  code_required.

(** [_validate_code(code, state)]; the result is the value of the
    [or]-chain, which is not always a [bool]. *)
Definition _validate_code (code : option string) (state : string) : M World pyval :=
  let* cfg := gets (fun w => _config (self w)) in
  let conf_code := of_option (CONF_CODE cfg) in
  let code := of_option code in
  let check :=
    py_or (py_or (py_or (PyBool (is_none conf_code))
                        (PyBool (py_eq code conf_code)))
                 (py_and (PyBool (py_eq conf_code (PyStr REMOTE_CODE))) code))
          (py_and (PyBool (py_eq conf_code (PyStr REMOTE_CODE_TEXT))) code) in
  let* _ := (if negb (truthy check)
             then _LOGGER_warning "Wrong code entered for %s" state
             else ret tt) in
  ret check.

(** [_publish(code, action)]. *)
Definition _publish (code : option string) (action : string) : M World unit :=
  let* cfg := gets (fun w => _config (self w)) in
  let payload := command_template (CONF_COMMAND_TEMPLATE cfg) action code in
  async_publish (CONF_COMMAND_TOPIC cfg) payload (CONF_QOS cfg) (CONF_RETAIN cfg)
    (CONF_ENCODING cfg).

Definition async_alarm_disarm (code : option string) : M World unit :=
  let* cfg := gets (fun w => _config (self w)) in
  let code_required := CONF_CODE_DISARM_REQUIRED cfg in
  let* refused := and_not code_required (_validate_code code "disarming") in
  if refused then ret tt
  else
    let payload := CONF_PAYLOAD_DISARM cfg in
    _publish code payload.

Definition async_alarm_arm_home (code : option string) : M World unit :=
  let* cfg := gets (fun w => _config (self w)) in
  let code_required := CONF_CODE_ARM_REQUIRED cfg in
  let* refused := and_not code_required (_validate_code code "arming home") in
  if refused then ret tt
  else
    let action := CONF_PAYLOAD_ARM_HOME cfg in
    _publish code action.

Definition async_alarm_arm_away (code : option string) : M World unit :=
  let* cfg := gets (fun w => _config (self w)) in
  let code_required := CONF_CODE_ARM_REQUIRED cfg in
  let* refused := and_not code_required (_validate_code code "arming away") in
  if refused then ret tt
  else
    let action := CONF_PAYLOAD_ARM_AWAY cfg in
    _publish code action.

Definition async_alarm_arm_night (code : option string) : M World unit :=
  let* cfg := gets (fun w => _config (self w)) in
  let code_required := CONF_CODE_ARM_REQUIRED cfg in
  let* refused := and_not code_required (_validate_code code "arming night") in
  if refused then ret tt
  else
    let action := CONF_PAYLOAD_ARM_NIGHT cfg in
    _publish code action.

Definition async_alarm_arm_vacation (code : option string) : M World unit :=
  let* cfg := gets (fun w => _config (self w)) in
  let code_required := CONF_CODE_ARM_REQUIRED cfg in
  let* refused := and_not code_required (_validate_code code "arming vacation") in
  if refused then ret tt
  else
    let action := CONF_PAYLOAD_ARM_VACATION cfg in
    _publish code action.

Definition async_alarm_arm_custom_bypass (code : option string) : M World unit :=
  let* cfg := gets (fun w => _config (self w)) in
  let code_required := CONF_CODE_ARM_REQUIRED cfg in
  let* refused := and_not code_required (_validate_code code "arming custom bypass") in
  if refused then ret tt
  else
    let action := CONF_PAYLOAD_ARM_CUSTOM_BYPASS cfg in
    _publish code action.

Definition async_alarm_trigger (code : option string) : M World unit :=
  let* cfg := gets (fun w => _config (self w)) in
  let code_required := CONF_CODE_TRIGGER_REQUIRED cfg in
  let* refused := and_not code_required (_validate_code code "triggering") in
  if refused then ret tt
  else
    let action := CONF_PAYLOAD_TRIGGER cfg in
    _publish code action.

(** The seven actions that the host can call on the entity. *)
Inductive Action : Type :=
| alarm_disarm
| alarm_arm_home
| alarm_arm_away
| alarm_arm_night
| alarm_arm_vacation
| alarm_arm_custom_bypass
| alarm_trigger.

Definition handler (a : Action) : option string -> M World unit :=
  match a with
  | alarm_disarm => async_alarm_disarm
  | alarm_arm_home => async_alarm_arm_home
  | alarm_arm_away => async_alarm_arm_away
  | alarm_arm_night => async_alarm_arm_night
  | alarm_arm_vacation => async_alarm_arm_vacation
  | alarm_arm_custom_bypass => async_alarm_arm_custom_bypass
  | alarm_trigger => async_alarm_trigger
  end.

(** What reaches the entity: a message on the state topic, or an action call. *)
Inductive Input : Type :=
| Message (msg_payload : string)
| Call (a : Action) (code : option string).

(** The entity after one input; an exception of the call goes to the host. *)
Definition step (w : World) (i : Input) : World :=
  match i with
  | Message msg_payload => snd (message_received msg_payload w)
  | Call a code => snd (handler a code w)
  end.

Definition run (inputs : list Input) (w : World) : World := fold_left step inputs w.

(** The journal entry of [_publish(code, action)] under [cfg]. *)
Definition publication (cfg : Config) (action : string) (code : option string) : Event :=
  AsyncPublish (CONF_COMMAND_TOPIC cfg)
    (command_template (CONF_COMMAND_TEMPLATE cfg) action code)
    (CONF_QOS cfg) (CONF_RETAIN cfg) (CONF_ENCODING cfg).

End WithRuntime.

(** [MqttAlarm.__init__]: the state starts unset. *)
Definition init (config : Config) : World :=
  {| self := {| _config := config; _state := None |}; journal := [] |}.

(** The three [code_*_required] keys of the schema. *)
Inductive Flag : Type :=
| CODE_ARM_REQUIRED
| CODE_DISARM_REQUIRED
| CODE_TRIGGER_REQUIRED.

Definition flag_value (cfg : Config) (f : Flag) : bool :=
  match f with
  | CODE_ARM_REQUIRED => CONF_CODE_ARM_REQUIRED cfg
  | CODE_DISARM_REQUIRED => CONF_CODE_DISARM_REQUIRED cfg
  | CODE_TRIGGER_REQUIRED => CONF_CODE_TRIGGER_REQUIRED cfg
  end.

(** The key that the handler of each action reads into [code_required]. *)
Definition flag_of (a : Action) : Flag :=
  match a with
  | alarm_disarm => CODE_DISARM_REQUIRED
  | alarm_arm_home => CODE_ARM_REQUIRED
  | alarm_arm_away => CODE_ARM_REQUIRED
  | alarm_arm_night => CODE_ARM_REQUIRED
  | alarm_arm_vacation => CODE_ARM_REQUIRED
  | alarm_arm_custom_bypass => CODE_ARM_REQUIRED
  | alarm_trigger => CODE_TRIGGER_REQUIRED
  end.

Definition code_required (cfg : Config) (a : Action) : bool := flag_value cfg (flag_of a).

(** The payload key and the log label of each handler. *)
Definition payload_of (cfg : Config) (a : Action) : string :=
  match a with
  | alarm_disarm => CONF_PAYLOAD_DISARM cfg
  | alarm_arm_home => CONF_PAYLOAD_ARM_HOME cfg
  | alarm_arm_away => CONF_PAYLOAD_ARM_AWAY cfg
  | alarm_arm_night => CONF_PAYLOAD_ARM_NIGHT cfg
  | alarm_arm_vacation => CONF_PAYLOAD_ARM_VACATION cfg
  | alarm_arm_custom_bypass => CONF_PAYLOAD_ARM_CUSTOM_BYPASS cfg
  | alarm_trigger => CONF_PAYLOAD_TRIGGER cfg
  end.

Definition label_of (a : Action) : string :=
  match a with
  | alarm_disarm => "disarming"
  | alarm_arm_home => "arming home"
  | alarm_arm_away => "arming away"
  | alarm_arm_night => "arming night"
  | alarm_arm_vacation => "arming vacation"
  | alarm_arm_custom_bypass => "arming custom bypass"
  | alarm_trigger => "triggering"
  end.

(** A runtime that renders nothing and never fails: the value template hands
    the raw payload on, the command template yields the action. *)
Definition plain_runtime : Runtime :=
  {| value_template := fun _ raw => raw;
     command_template := fun _ action _ => action;
     publish_error := fun _ _ => None |}.

(** The defaults of the schema, for the two required topics given. *)
Definition default_config (command_topic state_topic : string) : Config :=
  {| CONF_CODE := None;
     CONF_CODE_ARM_REQUIRED := true;
     CONF_CODE_DISARM_REQUIRED := true;
     CONF_CODE_TRIGGER_REQUIRED := true;
     CONF_COMMAND_TEMPLATE := "{{action}}";
     CONF_COMMAND_TOPIC := command_topic;
     CONF_NAME := "MQTT Alarm";
     CONF_PAYLOAD_ARM_AWAY := "ARM_AWAY";
     CONF_PAYLOAD_ARM_HOME := "ARM_HOME";
     CONF_PAYLOAD_ARM_NIGHT := "ARM_NIGHT";
     CONF_PAYLOAD_ARM_VACATION := "ARM_VACATION";
     CONF_PAYLOAD_ARM_CUSTOM_BYPASS := "ARM_CUSTOM_BYPASS";
     CONF_PAYLOAD_DISARM := "DISARM";
     CONF_PAYLOAD_TRIGGER := "TRIGGER";
     CONF_RETAIN := false;
     CONF_STATE_TOPIC := state_topic;
     CONF_VALUE_TEMPLATE := None;
     CONF_QOS := 0%Z;
     CONF_ENCODING := "utf-8" |}.

(** The same configuration with another code and other flags. *)
Definition with_code (code : option string) (arm disarm trigger : bool) (cfg : Config) : Config :=
  {| CONF_CODE := code;
     CONF_CODE_ARM_REQUIRED := arm;
     CONF_CODE_DISARM_REQUIRED := disarm;
     CONF_CODE_TRIGGER_REQUIRED := trigger;
     CONF_COMMAND_TEMPLATE := CONF_COMMAND_TEMPLATE cfg;
     CONF_COMMAND_TOPIC := CONF_COMMAND_TOPIC cfg;
     CONF_NAME := CONF_NAME cfg;
     CONF_PAYLOAD_ARM_AWAY := CONF_PAYLOAD_ARM_AWAY cfg;
     CONF_PAYLOAD_ARM_HOME := CONF_PAYLOAD_ARM_HOME cfg;
     CONF_PAYLOAD_ARM_NIGHT := CONF_PAYLOAD_ARM_NIGHT cfg;
     CONF_PAYLOAD_ARM_VACATION := CONF_PAYLOAD_ARM_VACATION cfg;
     CONF_PAYLOAD_ARM_CUSTOM_BYPASS := CONF_PAYLOAD_ARM_CUSTOM_BYPASS cfg;
     CONF_PAYLOAD_DISARM := CONF_PAYLOAD_DISARM cfg;
     CONF_PAYLOAD_TRIGGER := CONF_PAYLOAD_TRIGGER cfg;
     CONF_RETAIN := CONF_RETAIN cfg;
     CONF_STATE_TOPIC := CONF_STATE_TOPIC cfg;
     CONF_VALUE_TEMPLATE := CONF_VALUE_TEMPLATE cfg;
     CONF_QOS := CONF_QOS cfg;
     CONF_ENCODING := CONF_ENCODING cfg |}.

(** An alarm with the code 1234, required for every action. *)
Definition panel : Config :=
  with_code (Some "1234") true true true (default_config "home/alarm/set" "home/alarm").

(** An alarm that takes any code the keypad sends. *)
Definition remote_panel : Config :=
  with_code (Some REMOTE_CODE) true true true (default_config "home/alarm/set" "home/alarm").

(** A fresh entity with the given code configured. *)
Definition entity (code : option string) : MqttAlarm :=
  {| _config := with_code code true true true (default_config "home/alarm/set" "home/alarm");
     _state := None |}.

(** *** Vocabulary of the statements *)

(** The ten recognized alarm state strings. *)
Definition RECOGNIZED_STATES : list string :=
  [ STATE_ALARM_DISARMED; STATE_ALARM_ARMED_HOME; STATE_ALARM_ARMED_AWAY;
    STATE_ALARM_ARMED_NIGHT; STATE_ALARM_ARMED_VACATION;
    STATE_ALARM_ARMED_CUSTOM_BYPASS; STATE_ALARM_PENDING; STATE_ALARM_ARMING;
    STATE_ALARM_DISARMING; STATE_ALARM_TRIGGERED ].

(** The state field is unset or holds a recognized state string. *)
Definition state_ok (st : option string) : Prop :=
  st = None \/ exists s, st = Some s /\ In s RECOGNIZED_STATES.

(** The acceptance policy in the words of the specification: no code is
    configured, or the supplied code equals the configured one, or the
    configured code is one of the two sentinels and the supplied code is
    not empty. *)
Definition code_accepted (cfg : Config) (code : option string) : Prop :=
  CONF_CODE cfg = None \/
  code = CONF_CODE cfg \/
  ((CONF_CODE cfg = Some REMOTE_CODE \/ CONF_CODE cfg = Some REMOTE_CODE_TEXT) /\
   exists s, code = Some s /\ s <> "").

(** The same policy as a test. *)
Definition accepts (cfg : Config) (code : option string) : bool :=
  match CONF_CODE cfg with
  | None => true
  | Some c =>
      py_eq (of_option code) (PyStr c) ||
      ((String.eqb c REMOTE_CODE || String.eqb c REMOTE_CODE_TEXT) && truthy (of_option code))
  end.

Definition is_publish (e : Event) : bool :=
  match e with
  | AsyncPublish _ _ _ _ _ => true
  | _ => false
  end.

End Alarm.

(* ===================================================================== *)
(** ** litterrobot/vacuum.py *)
(* ===================================================================== *)

Module Vacuum.
Import Eff Eff.Notations.

(** [pylitterbot.enums.LitterBoxStatus] is a third-party enumeration: the nine
    members that this module names, and [OTHER name] for each further member
    of the enumeration. *)
Inductive LitterBoxStatus : Type :=
| CLEAN_CYCLE
| EMPTY_CYCLE
| CLEAN_CYCLE_COMPLETE
| CAT_SENSOR_TIMING
| DRAWER_FULL_1
| DRAWER_FULL_2
| READY
| CAT_SENSOR_INTERRUPTED
| OFF
| OTHER (name : string).

#[global] Instance LitterBoxStatus_eq_dec : EqDecision LitterBoxStatus.
Proof. solve_decision. Defined.

Definition status_code (s : LitterBoxStatus) : nat + string :=
  match s with
  | CLEAN_CYCLE => inl 0
  | EMPTY_CYCLE => inl 1
  | CLEAN_CYCLE_COMPLETE => inl 2
  | CAT_SENSOR_TIMING => inl 3
  | DRAWER_FULL_1 => inl 4
  | DRAWER_FULL_2 => inl 5
  | READY => inl 6
  | CAT_SENSOR_INTERRUPTED => inl 7
  | OFF => inl 8
  | OTHER name => inr name
  end.

Definition status_of_code (c : nat + string) : LitterBoxStatus :=
  match c with
  | inl 0 => CLEAN_CYCLE
  | inl 1 => EMPTY_CYCLE
  | inl 2 => CLEAN_CYCLE_COMPLETE
  | inl 3 => CAT_SENSOR_TIMING
  | inl 4 => DRAWER_FULL_1
  | inl 5 => DRAWER_FULL_2
  | inl 6 => READY
  | inl 7 => CAT_SENSOR_INTERRUPTED
  | inl _ => OFF
  | inr name => OTHER name
  end.

(** Statuses are hashable: they can be the keys of a dictionary. *)
#[global] Instance LitterBoxStatus_countable : Countable LitterBoxStatus.
Proof.
  refine (inj_countable' status_code status_of_code _).
  intros []; reflexivity.
Defined.

(** Modelled from the spec: the state strings of
    homeassistant/components/vacuum and homeassistant/const.py, which are not
    among the sources; the specification spells them cleaning, docked,
    paused, off and error. *)
Definition STATE_CLEANING : string := "cleaning".
Definition STATE_DOCKED : string := "docked".
Definition STATE_ERROR : string := "error".
Definition STATE_PAUSED : string := "paused".
Definition STATE_OFF : string := "off".

(** A dictionary display [{k0: v0, k1: v1, ...}]: the items are stored from
    left to right, a later item replaces an earlier one with the same key. *)
Definition dict_display {K V : Type} `{Countable K} (items : list (K * V)) : gmap K V :=
  fold_left (fun d kv => <[fst kv := snd kv]> d) items ∅.

(** [d.get(key, default)]. *)
Definition dict_get {K V : Type} `{Countable K} (d : gmap K V) (key : K) (dflt : V) : V :=
  match d !! key with
  | Some v => v
  | None => dflt
  end.

Definition LITTER_BOX_STATUS_STATE_MAP : gmap LitterBoxStatus string :=
  dict_display
    [ (CLEAN_CYCLE, STATE_CLEANING);
      (EMPTY_CYCLE, STATE_CLEANING);
      (CLEAN_CYCLE_COMPLETE, STATE_DOCKED);
      (CAT_SENSOR_TIMING, STATE_DOCKED);
      (DRAWER_FULL_1, STATE_DOCKED);
      (DRAWER_FULL_2, STATE_DOCKED);
      (READY, STATE_DOCKED);
      (CAT_SENSOR_INTERRUPTED, STATE_PAUSED);
      (OFF, STATE_OFF) ].

(** [datetime.timedelta], normalised as Python stores it:
    [0 <= seconds < 86400] and [0 <= microseconds < 1000000]. *)
Record timedelta : Type := {
  days : Z;
  seconds : Z;
  microseconds : Z
}.

(** [timedelta(minutes=m)]. *)
Definition timedelta_minutes (m : Z) : timedelta :=
  {| days := (m * 60) / 86400;
     seconds := (m * 60) mod 86400;
     microseconds := 0 |}%Z.

Definition total_microseconds (d : timedelta) : Z :=
  ((days d * 86400 + seconds d) * 1000000 + microseconds d)%Z.

(** A timezone-aware [datetime] is an instant: microseconds on the UTC time
    line. Subtraction of a [timedelta] and comparison are exact. *)
Definition datetime : Type := Z.

Definition datetime_sub (t : datetime) (d : timedelta) : datetime :=
  (t - total_microseconds d)%Z.

Definition datetime_gt (a b : datetime) : bool := (b <? a)%Z.

Definition UNAVAILABLE_AFTER : timedelta := timedelta_minutes 30.

(** The attributes of the SDK's robot object that the entity reads. *)
Record Robot : Type := {
  status : LitterBoxStatus;
  status_text : string;
  last_seen : datetime;
  is_sleeping : bool;
  sleep_mode_enabled : bool;
  power_status : string
}.

(** The [available] property; [now] is [datetime.now(timezone.utc)]. *)
Definition available (robot : Robot) (now : datetime) : bool :=
  datetime_gt (last_seen robot) (datetime_sub now UNAVAILABLE_AFTER).

(** The [state] property. *)
Definition state (robot : Robot) : string :=
  dict_get LITTER_BOX_STATUS_STATE_MAP (status robot) STATE_ERROR.

(** The [status] property: the status text, with a suffix while sleeping. *)
Definition status_property (robot : Robot) : string :=
  (status_text robot ++ (if is_sleeping robot then " (Sleeping)" else ""))%string.

(** The asynchronous methods of the SDK's robot object that the entity calls. *)
Inductive RobotCall : Type :=
| set_power_status (value : bool)
| start_cleaning
| reset_waste_drawer
| set_sleep_mode (value : bool) (sleep_time : option Z)
| set_wait_time (wait_time : Z).

(** What the entity does to its collaborators. *)
Inductive Event : Type :=
| Warning (msg : string)
| SdkCall (call : RobotCall)
| SetUpdatedData (data : bool)
| Refresh.

(** The collaborators outside this module:
    - [sdk_result call] is how the awaited SDK call ends;
    - [parse_time start_time] is
      [LitterRobotControlEntity.parse_time_at_default_timezone(start_time)]. *)
Class RobotSdk : Type := {
  sdk_result : RobotCall -> outcome bool;
  parse_time : option string -> option Z
}.

Definition emit (e : Event) : M (list Event) unit := modify (fun j => j ++ [e]).

(** [_LOGGER.warning(msg)]. *)
Definition _LOGGER_warning (msg : string) : M (list Event) unit := emit (Warning msg).

Section WithSdk.
Context {K : RobotSdk}.

(** [await self.robot.<call>]. *)
Definition robot_call (call : RobotCall) : M (list Event) bool :=
  let* _ := emit (SdkCall call) in
  fun j => (sdk_result call, j).

(** [self.coordinator.async_set_updated_data(data)]. *)
Definition coordinator_async_set_updated_data (data : bool) : M (list Event) unit :=
  emit (SetUpdatedData data).

(** Modelled from the spec: [LitterRobotControlEntity.perform_action_and_refresh]
    of litterrobot/entity.py, which is not among the sources. Section 4.1:
    an action invokes the corresponding SDK call and then forces a data
    refresh; errors from the SDK call propagate unmodified. *)
Definition perform_action_and_refresh (call : RobotCall) : M (list Event) bool :=
  let* success := robot_call call in
  let* _ := emit Refresh in
  ret success.

Definition async_turn_on : M (list Event) unit :=
  let* _ := perform_action_and_refresh (set_power_status true) in
  ret tt.

Definition async_turn_off : M (list Event) unit :=
  let* _ := perform_action_and_refresh (set_power_status false) in
  ret tt.

Definition async_start : M (list Event) unit :=
  let* _ := perform_action_and_refresh start_cleaning in
  ret tt.

Definition async_reset_waste_drawer : M (list Event) unit :=
  let* _ := _LOGGER_warning
    ("The 'litterrobot.reset_waste_drawer' service is deprecated and " ++
     "replaced by a dedicated reset waste drawer button entity; Please " ++
     "use that entity to reset the waste drawer instead")%string in
  let* _ := robot_call reset_waste_drawer in
  coordinator_async_set_updated_data true.

Definition async_set_sleep_mode (enabled : bool) (start_time : option string) :
    M (list Event) unit :=
  let* _ := perform_action_and_refresh
              (set_sleep_mode enabled (parse_time start_time)) in
  ret tt.

Definition async_set_wait_time (minutes : Z) : M (list Event) unit :=
  let* _ := _LOGGER_warning
    ("The 'litterrobot.set_wait_time' service is deprecated and " ++
     "replaced by a dedicated set wait time select entity; Please " ++
     "use that entity to set the wait time instead")%string in
  let* _ := perform_action_and_refresh (set_wait_time minutes) in
  ret tt.

(** The three entity services that [async_setup_entry] registers, each with
    the arguments of its schema, and the method each is bound to. *)
Inductive Service : Type :=
| SERVICE_RESET_WASTE_DRAWER
| SERVICE_SET_SLEEP_MODE (enabled : bool) (start_time : option string)
| SERVICE_SET_WAIT_TIME (minutes : Z).

Definition call_service (s : Service) : M (list Event) unit :=
  match s with
  | SERVICE_RESET_WASTE_DRAWER => async_reset_waste_drawer
  | SERVICE_SET_SLEEP_MODE enabled start_time => async_set_sleep_mode enabled start_time
  | SERVICE_SET_WAIT_TIME minutes => async_set_wait_time minutes
  end.

(** The SDK call behind each service. *)
Definition legacy_call (s : Service) : RobotCall :=
  match s with
  | SERVICE_RESET_WASTE_DRAWER => reset_waste_drawer
  | SERVICE_SET_SLEEP_MODE enabled start_time => set_sleep_mode enabled (parse_time start_time)
  | SERVICE_SET_WAIT_TIME minutes => set_wait_time minutes
  end.

End WithSdk.

(** An SDK whose calls all succeed, and one whose calls all raise. *)
Definition sdk_ok : RobotSdk :=
  {| sdk_result := fun _ => Returned true; parse_time := fun _ => None |}.

Definition sdk_down : RobotSdk :=
  {| sdk_result := fun _ => Raised "LitterRobotException"; parse_time := fun _ => None |}.

Definition is_warning (e : Event) : bool :=
  match e with
  | Warning _ => true
  | _ => false
  end.

(** The same robot reporting another status. *)
Definition with_status (st : LitterBoxStatus) (robot : Robot) : Robot :=
  {| status := st;
     status_text := status_text robot;
     last_seen := last_seen robot;
     is_sleeping := is_sleeping robot;
     sleep_mode_enabled := sleep_mode_enabled robot;
     power_status := power_status robot |}.

(** The warning that a service logs before it runs, if it logs one. *)
Definition deprecation_warning (s : Service) : list Event :=
  match s with
  | SERVICE_RESET_WASTE_DRAWER =>
      [Warning ("The 'litterrobot.reset_waste_drawer' service is deprecated and " ++
                "replaced by a dedicated reset waste drawer button entity; Please " ++
                "use that entity to reset the waste drawer instead")]
  | SERVICE_SET_SLEEP_MODE _ _ => []
  | SERVICE_SET_WAIT_TIME _ =>
      [Warning ("The 'litterrobot.set_wait_time' service is deprecated and " ++
                "replaced by a dedicated set wait time select entity; Please " ++
                "use that entity to set the wait time instead")]
  end%string.

(** What follows the SDK call of a service once the call has returned. *)
Definition follow_up (s : Service) : Event :=
  match s with
  | SERVICE_RESET_WASTE_DRAWER => SetUpdatedData true
  | _ => Refresh
  end.

(** A robot last seen at [seen]. *)
Definition robot_seen (seen : datetime) : Robot :=
  {| status := READY;
     status_text := "Ready";
     last_seen := seen;
     is_sleeping := false;
     sleep_mode_enabled := false;
     power_status := "AC" |}.

End Vacuum.

(* ===================================================================== *)
(** ** Further members of the two modules *)
(* ===================================================================== *)

Module AlarmExt.
Import Py Eff Alarm.

(** The six members of [AlarmControlPanelEntityFeature] that the entity
    names. The enumeration is declared in
    homeassistant/components/alarm_control_panel; its values are taken as
    given. *)
Class AlarmControlPanelEntityFeature : Type := {
  ARM_HOME : Z;
  ARM_AWAY : Z;
  ARM_NIGHT : Z;
  ARM_VACATION : Z;
  ARM_CUSTOM_BYPASS : Z;
  TRIGGER : Z
}.

(** The [supported_features] property. *)
Definition supported_features `{AlarmControlPanelEntityFeature} : Z :=
  Z.lor (Z.lor (Z.lor (Z.lor (Z.lor ARM_HOME ARM_AWAY) ARM_NIGHT) ARM_VACATION)
           ARM_CUSTOM_BYPASS)
    TRIGGER.

Definition is_write (e : Event) : bool :=
  match e with
  | AsyncWriteHaState _ => true
  | _ => false
  end.

Section WithRuntime.
Context {R : Runtime}.

(** The input is a message whose rendered payload is a recognized state. *)
Definition recognized (cfg : Config) (i : Input) : bool :=
  match i with
  | Message msg_payload =>
      py_in (value_template (CONF_VALUE_TEMPLATE cfg) msg_payload) RECOGNIZED_STATES
  | Call _ _ => false
  end.

(** The journal entry that an input leaves under [cfg]. *)
Definition entry (cfg : Config) (i : Input) : Event :=
  match i with
  | Message msg_payload =>
      if recognized cfg i
      then AsyncWriteHaState (Some (value_template (CONF_VALUE_TEMPLATE cfg) msg_payload))
      else Warning "Received unexpected payload: %s" msg_payload
  | Call a code =>
      if code_required cfg a && negb (accepts cfg code)
      then Warning "Wrong code entered for %s" (label_of a)
      else publication cfg (payload_of cfg a) code
  end.

End WithRuntime.

End AlarmExt.

Module VacuumExt.
Import Eff Vacuum.



End VacuumExt.

(* ===================================================================== *)
(** ** Facts about the Python fragment *)
(* ===================================================================== *)

Module PyFacts.
Import Py.

Lemma py_in_In (x : string) (t : list string) : py_in x t = true <-> In x t.
Proof.
  unfold py_in. rewrite existsb_exists. split.
  - intros [y [Hy Hxy]]. apply String.eqb_eq in Hxy. now subst.
  - intros H. exists x. split; [exact H | apply String.eqb_refl].
Qed.

Lemma py_in_not_In (x : string) (t : list string) : py_in x t = false <-> ~ In x t.
Proof.
  rewrite <- py_in_In. destruct (py_in x t); split; congruence.
Qed.

Lemma truthy_of_option (o : option string) :
  truthy (of_option o) = true <-> exists s, o = Some s /\ s <> "".
Proof.
  destruct o as [s|]; simpl.
  - rewrite negb_true_iff. split.
    + intros H. exists s. split; [reflexivity|]. now apply String.eqb_neq.
    + intros [s' [Hs Hne]]. inversion Hs; subst. now apply String.eqb_neq.
  - split; [discriminate|]. intros [s [Hs _]]. discriminate Hs.
Qed.

Lemma py_eq_of_option (a b : option string) :
  py_eq (of_option a) (of_option b) = true <-> a = b.
Proof.
  destruct a as [x|], b as [y|]; simpl; split; intros H;
    try discriminate; try reflexivity.
  - apply String.eqb_eq in H. now subst.
  - inversion H; subst. apply String.eqb_refl.
Qed.


End PyFacts.

Module ReFacts.
Import Re.

Lemma anchored_only_at_start (pat : list atom) (s : string) :
  search_from (Bol :: pat) false s = false.
Proof. induction s as [|c r IH]; simpl; [reflexivity | exact IH]. Qed.

Lemma search_anchored (pat : list atom) (s : string) :
  search (Bol :: pat) s = match_here pat true s.
Proof.
  unfold search. destruct s as [|c r]; simpl.
  - now rewrite orb_false_r.
  - now rewrite anchored_only_at_start, orb_false_r.
Qed.

Lemma newline_not_digit : is_digit "010"%char = false.
Proof. reflexivity. Qed.

Lemma at_eol_cons (c : ascii) (r : string) :
  at_eol (String c r) = true <-> c = "010"%char /\ r = "".
Proof.
  unfold at_eol, newline. rewrite orb_true_iff, !String.eqb_eq. split.
  - intros [H | H]; [discriminate H | inversion H; auto].
  - intros [-> ->]. now right.
Qed.

(** After the first digit: a run of digits, then the end or a last newline. *)
Lemma plus_digits_eol (r : string) :
  plus_rest is_digit (match_here [Eol] false) r = true <->
  exists ds, all_digits ds = true /\ (r = ds \/ r = (ds ++ newline)%string).
Proof.
  induction r as [|c r IH]; simpl.
  - split; [|reflexivity]. intros _. exists "". split; [reflexivity | now left].
  - destruct (is_digit c) eqn:Hc.
    + assert (Hk : at_eol (String c r) && true = false).
      { rewrite andb_true_r. destruct (at_eol (String c r)) eqn:E; [|reflexivity].
        apply at_eol_cons in E as [-> _]. discriminate Hc. }
      rewrite Hk, orb_false_r, IH. split.
      * intros [ds [Hds Hr]]. exists (String c ds). simpl. rewrite Hc, Hds.
        split; [reflexivity|]. destruct Hr as [-> | ->]; [now left | now right].
      * intros [ds [Hds Hr]]. destruct ds as [|d ds].
        -- destruct Hr as [Hr | Hr]; [discriminate Hr|].
           simpl in Hr. unfold newline in Hr. inversion Hr; subst. discriminate Hc.
        -- simpl in Hds. apply andb_true_iff in Hds as [_ Hds].
           exists ds. split; [exact Hds|].
           destruct Hr as [Hr | Hr]; simpl in Hr; inversion Hr; subst; [now left | now right].
    + rewrite andb_true_r, at_eol_cons. split.
      * intros [-> ->]. exists "". split; [reflexivity | now right].
      * intros [ds [Hds Hr]]. destruct ds as [|d ds].
        -- destruct Hr as [Hr | Hr]; [discriminate Hr|].
           simpl in Hr. unfold newline in Hr. inversion Hr; subst. split; reflexivity.
        -- simpl in Hds. apply andb_true_iff in Hds as [Hd _].
           destruct Hr as [Hr | Hr]; simpl in Hr; inversion Hr; subst; congruence.
Qed.

(** What [re.search("^\\d+$", s)] accepts: one or more digits, optionally
    followed by a single final newline. *)
Lemma search_DIGITS (s : string) :
  search DIGITS s = true <->
  exists ds, ds <> "" /\ all_digits ds = true /\ (s = ds \/ s = (ds ++ newline)%string).
Proof.
  unfold DIGITS. rewrite search_anchored. destruct s as [|c r]; simpl.
  - split; [discriminate|]. intros [ds [Hne [_ [H | H]]]].
    + now subst.
    + destruct ds; [now elim Hne | discriminate H].
  - rewrite andb_true_iff, plus_digits_eol. split.
    + intros [Hc [ds [Hds Hr]]]. exists (String c ds). simpl. rewrite Hc, Hds.
      split; [discriminate|]. split; [reflexivity|].
      destruct Hr as [-> | ->]; [now left | now right].
    + intros [ds [Hne [Hds Hr]]]. destruct ds as [|d ds]; [now elim Hne|].
      simpl in Hds. apply andb_true_iff in Hds as [Hd Hds].
      destruct Hr as [Hr | Hr]; simpl in Hr; inversion Hr; subst;
        (split; [exact Hd | exists ds; split; [exact Hds | auto]]).
Qed.

(** On strings without a newline the pattern accepts exactly the non-empty
    digit strings. *)
Lemma search_DIGITS_all_digits (s : string) :
  s <> "" -> all_digits s = true -> search DIGITS s = true.
Proof.
  intros Hne Hd. apply search_DIGITS. exists s. auto.
Qed.


End ReFacts.

(* ===================================================================== *)
(** ** The alarm control panel: what its handlers do *)
(* ===================================================================== *)

Module AlarmSpec.
Import Py Eff Alarm.

Ltac run_monad :=
  unfold bind, gets, ret, raise, modify, emit, _LOGGER_warning; simpl.

Lemma accepts_iff (cfg : Config) (code : option string) :
  accepts cfg code = true <-> code_accepted cfg code.
Proof.
  unfold accepts, code_accepted. destruct (CONF_CODE cfg) as [c|].
  - rewrite orb_true_iff, andb_true_iff, orb_true_iff, !String.eqb_eq.
    change (PyStr c) with (of_option (Some c)).
    rewrite PyFacts.py_eq_of_option, PyFacts.truthy_of_option.
    split.
    + intros [H | [[H | H] Hs]].
      * right; left; exact H.
      * right; right. split; [left; congruence | exact Hs].
      * right; right. split; [right; congruence | exact Hs].
    + intros [H | [H | [[H | H] Hs]]].
      * discriminate H.
      * left; exact H.
      * right. split; [left; congruence | exact Hs].
      * right. split; [right; congruence | exact Hs].
  - split; [intros _; now left | reflexivity].
Qed.

Section WithRuntime.
Context {R : Runtime}.

(** [_validate_code] returns a value that is true exactly for an accepted
    code, and logs the warning exactly when it is not. *)
Lemma _validate_code_run (code : option string) (st : string) (w : World) :
  exists v,
    truthy v = accepts (_config (self w)) code /\
    _validate_code code st w =
      (Returned v, if truthy v then w else noted (Warning "Wrong code entered for %s" st) w).
Proof.
  unfold _validate_code. run_monad.
  set (check := py_or _ _). exists check. split.
  - subst check. unfold accepts.
    destruct (CONF_CODE (_config (self w))) as [c|]; [|reflexivity].
    destruct code as [[|a s]|]; unfold py_or, py_and, of_option, py_eq, is_none.
    + destruct (String.eqb "" c), (String.eqb c REMOTE_CODE),
        (String.eqb c REMOTE_CODE_TEXT); reflexivity.
    + destruct (String.eqb (String a s) c), (String.eqb c REMOTE_CODE),
        (String.eqb c REMOTE_CODE_TEXT); reflexivity.
    + destruct (String.eqb c REMOTE_CODE), (String.eqb c REMOTE_CODE_TEXT); reflexivity.
  - destruct (truthy check); reflexivity.
Qed.

(** [_publish] hands the rendered payload to [async_publish], once. *)
Lemma _publish_run (code : option string) (action : string) (w : World) :
  _publish code action w =
    (match publish_error (CONF_COMMAND_TOPIC (_config (self w)))
             (command_template (CONF_COMMAND_TEMPLATE (_config (self w))) action code) with
     | Some exn => Raised exn
     | None => Returned tt
     end,
     noted (publication (_config (self w)) action code) w).
Proof.
  unfold _publish, async_publish, publication. run_monad.
  destruct (publish_error _ _); reflexivity.
Qed.

(** Every handler has the same shape: the flag of its group, then the
    validation, then the publication of its own payload. *)
Lemma handler_run (a : Action) (code : option string) (w : World) :
  handler a code w =
    if code_required (_config (self w)) a && negb (accepts (_config (self w)) code)
    then (Returned tt, noted (Warning "Wrong code entered for %s" (label_of a)) w)
    else _publish code (payload_of (_config (self w)) a) w.
Proof.
  destruct a; unfold handler, code_required, flag_value, flag_of; simpl;
    unfold async_alarm_disarm, async_alarm_arm_home, async_alarm_arm_away,
      async_alarm_arm_night, async_alarm_arm_vacation,
      async_alarm_arm_custom_bypass, async_alarm_trigger;
    unfold bind at 1, gets at 1; simpl;
    match goal with
    | |- context [and_not ?b (_validate_code code ?st)] =>
        destruct b eqn:Hflag; unfold and_not, bind, ret; simpl;
        [ destruct (_validate_code_run code st w) as [v [Hv ->]];
          rewrite <- Hv; destruct (truthy v); reflexivity
        | reflexivity ]
    end.
Qed.

(** **** Inbound messages *)

Lemma message_received_run (msg_payload : string) (w : World) :
  message_received msg_payload w =
    let payload := value_template (CONF_VALUE_TEMPLATE (_config (self w))) msg_payload in
    if py_in payload RECOGNIZED_STATES
    then (Returned tt,
          {| self := {| _config := _config (self w); _state := Some payload |};
             journal := journal w ++ [AsyncWriteHaState (Some payload)] |})
    else (Returned tt,
          {| self := self w;
             journal := journal w ++ [Warning "Received unexpected payload: %s" msg_payload] |}).
Proof.
  unfold message_received, RECOGNIZED_STATES, bind at 1, gets. cbv zeta beta iota.
  destruct (py_in _ _); reflexivity.
Qed.

(** C2. For every message on the state topic: when the rendered payload is
    one of the ten recognized alarm state strings, the state becomes exactly
    that string and the host is handed the new state; when it is anything
    else, a warning is logged and the entity is left as it was. In both
    cases the callback returns. *)
Theorem message_received_sets_recognized_state (msg_payload : string) (w : World) :
  let payload := value_template (CONF_VALUE_TEMPLATE (_config (self w))) msg_payload in
  (In payload RECOGNIZED_STATES ->
   message_received msg_payload w =
     (Returned tt,
      {| self := {| _config := _config (self w); _state := Some payload |};
         journal := journal w ++ [AsyncWriteHaState (Some payload)] |})) /\
  (~ In payload RECOGNIZED_STATES ->
   message_received msg_payload w =
     (Returned tt,
      {| self := self w;
         journal := journal w ++ [Warning "Received unexpected payload: %s" msg_payload] |})).
Proof.
  intros payload. subst payload. rewrite message_received_run. cbv zeta.
  split; intros H.
  - apply PyFacts.py_in_In in H. now rewrite H.
  - apply PyFacts.py_in_not_In in H. now rewrite H.
Qed.

(** **** Actions *)

(** C1. For an action whose code-required flag is true, the command payload
    is published if and only if no code is configured, or the supplied code
    equals the configured one, or the configured code is one of the two
    sentinels and the supplied code is not empty. An accepted code yields
    exactly the one publication; a refused one yields exactly the warning,
    and the handler returns without raising. *)
Theorem required_action_publishes_iff_code_accepted
    (a : Action) (code : option string) (w : World) :
  code_required (_config (self w)) a = true ->
  exists new : list Event,
    snd (handler a code w) = {| self := self w; journal := journal w ++ new |} /\
    (existsb is_publish new = true <-> code_accepted (_config (self w)) code) /\
    (code_accepted (_config (self w)) code ->
     new = [publication (_config (self w)) (payload_of (_config (self w)) a) code]) /\
    (~ code_accepted (_config (self w)) code ->
     new = [Warning "Wrong code entered for %s" (label_of a)] /\
     fst (handler a code w) = Returned tt).
Proof.
  intros Hreq. rewrite handler_run, Hreq. simpl.
  destruct (accepts (_config (self w)) code) eqn:Hacc; simpl.
  - apply accepts_iff in Hacc. rewrite _publish_run. simpl.
    eexists. split; [reflexivity|]. split; [|split].
    + split; [intros _; exact Hacc | reflexivity].
    + reflexivity.
    + intros Hn. now elim Hn.
  - assert (Hn : ~ code_accepted (_config (self w)) code).
    { intros H. apply accepts_iff in H. congruence. }
    eexists. split; [reflexivity|]. split; [|split].
    + split; [discriminate | intros H; now elim Hn].
    + intros H. now elim Hn.
    + intros _. split; reflexivity.
Qed.

(** An action whose flag is false publishes whatever the code. *)
Lemma unrequired_action_publishes (a : Action) (code : option string) (w : World) :
  code_required (_config (self w)) a = false ->
  snd (handler a code w) =
    noted (publication (_config (self w)) (payload_of (_config (self w)) a) code) w.
Proof.
  intros Hreq. now rewrite handler_run, Hreq, _publish_run.
Qed.

Lemma handler_self (a : Action) (code : option string) (w : World) :
  self (snd (handler a code w)) = self w.
Proof.
  rewrite handler_run, _publish_run.
  destruct (code_required _ a && negb (accepts _ code)); reflexivity.
Qed.

Lemma message_received_state (msg_payload : string) (w : World) :
  let payload := value_template (CONF_VALUE_TEMPLATE (_config (self w))) msg_payload in
  self (snd (message_received msg_payload w)) =
    if py_in payload RECOGNIZED_STATES
    then {| _config := _config (self w); _state := Some payload |}
    else self w.
Proof.
  rewrite message_received_run. cbv zeta. destruct (py_in _ _); reflexivity.
Qed.

(** C5. No action handler touches the entity: whether the code is accepted,
    refused or not asked for, [_state] (and [_config]) are as before. An
    input that changes [_state] is therefore a message on the state topic,
    whose rendered payload is recognized and becomes the state. *)
Theorem only_messages_change_state :
  (forall (a : Action) (code : option string) (w : World),
     self (snd (handler a code w)) = self w) /\
  (forall (i : Input) (w : World),
     _state (self (step w i)) <> _state (self w) ->
     exists msg_payload,
       i = Message msg_payload /\
       In (value_template (CONF_VALUE_TEMPLATE (_config (self w))) msg_payload)
          RECOGNIZED_STATES /\
       _state (self (step w i)) =
         Some (value_template (CONF_VALUE_TEMPLATE (_config (self w))) msg_payload)).
Proof.
  split.
  - apply handler_self.
  - intros [msg_payload | a code] w Hne; simpl in *.
    + exists msg_payload. split; [reflexivity|].
      rewrite message_received_state in *. cbv zeta in *.
      destruct (py_in _ RECOGNIZED_STATES) eqn:Hin.
      * apply PyFacts.py_in_In in Hin. split; [exact Hin | reflexivity].
      * now elim Hne.
    + rewrite handler_self in Hne. now elim Hne.
Qed.

(** **** Reachable states *)

Lemma step_config (w : World) (i : Input) : _config (self (step w i)) = _config (self w).
Proof.
  destruct i as [msg_payload | a code]; simpl.
  - rewrite message_received_state. cbv zeta. destruct (py_in _ _); reflexivity.
  - now rewrite handler_self.
Qed.

Lemma step_state_ok (w : World) (i : Input) :
  state_ok (_state (self w)) -> state_ok (_state (self (step w i))).
Proof.
  intros Hok. destruct i as [msg_payload | a code]; simpl.
  - rewrite message_received_state. cbv zeta.
    destruct (py_in _ RECOGNIZED_STATES) eqn:Hin; [|exact Hok].
    right. eexists. split; [reflexivity|]. now apply PyFacts.py_in_In.
  - now rewrite handler_self.
Qed.

Lemma run_state_ok (inputs : list Input) (w : World) :
  state_ok (_state (self w)) -> state_ok (_state (self (run inputs w))).
Proof.
  revert w. induction inputs as [|i inputs IH]; intros w Hok; simpl.
  - exact Hok.
  - apply IH. now apply step_state_ok.
Qed.

(** C6. After any sequence of inbound messages and action calls, starting
    from the freshly constructed entity, the state field is unset ([None])
    or one of the ten recognized alarm state strings. *)
Theorem reachable_state_is_unset_or_recognized (config : Config) (inputs : list Input) :
  state_ok (_state (self (run inputs (init config)))).
Proof.
  apply run_state_ok. now left.
Qed.

End WithRuntime.

(** **** The three code-required flags *)

Lemma has_publish_noted (e : Event) (cfg : Config) :
  existsb is_publish (journal (noted e (init cfg))) = is_publish e.
Proof. simpl. now rewrite orb_false_r. Qed.

(** Against C3 as stated (a flag of its own for each of the seven actions):
    the arm-home and arm-away handlers read the same key, so no configuration
    asks for the code on one and not on the other, and no configuration and
    code make one refuse and the other publish. *)
Lemma arm_home_and_arm_away_share_one_flag :
  ~ (forall a b : Action, a <> b ->
     forall x y : bool, exists cfg : Config,
       code_required cfg a = x /\ code_required cfg b = y) /\
  ~ (exists (R : Runtime) (cfg : Config) (code : option string),
       existsb is_publish (journal (snd (handler alarm_arm_home code (init cfg)))) = false /\
       existsb is_publish (journal (snd (handler alarm_arm_away code (init cfg)))) = true).
Proof.
  split.
  - intros H.
    destruct (H alarm_arm_home alarm_arm_away ltac:(discriminate) true false)
      as [cfg [H1 H2]].
    unfold code_required in *. simpl in *. congruence.
  - intros [R [cfg [code [H1 H2]]]].
    rewrite handler_run in H1, H2. rewrite _publish_run in H1, H2.
    unfold code_required in *. simpl in *.
    destruct (CONF_CODE_ARM_REQUIRED cfg && negb (accepts cfg code)); simpl in *; congruence.
Qed.

(** C3, as the code has it. The handlers gate the validation on three flags:
    disarm on [code_disarm_required], trigger on [code_trigger_required], and
    the five arm actions on the one [code_arm_required]. Each handler
    validates exactly when the flag of its group is set; two actions of
    different groups can be configured independently; two actions of one
    group always share their requirement. *)
Theorem code_required_is_per_group (a b : Action) :
  (forall (R : Runtime) (code : option string) (w : World),
     handler a code w =
       if flag_value (_config (self w)) (flag_of a) && negb (accepts (_config (self w)) code)
       then (Returned tt, noted (Warning "Wrong code entered for %s" (label_of a)) w)
       else _publish code (payload_of (_config (self w)) a) w) /\
  (flag_of a <> flag_of b ->
   forall (cfg : Config) (x y : bool), exists arm disarm trigger : bool,
     code_required (with_code (CONF_CODE cfg) arm disarm trigger cfg) a = x /\
     code_required (with_code (CONF_CODE cfg) arm disarm trigger cfg) b = y) /\
  (flag_of a = flag_of b ->
   forall cfg : Config, code_required cfg a = code_required cfg b).
Proof.
  split; [|split].
  - intros R code w. apply handler_run.
  - intros Hne cfg x y. unfold code_required.
    destruct (flag_of a) eqn:Ha, (flag_of b) eqn:Hb; try (now elim Hne); simpl.
    + exists x, y, true. split; reflexivity.
    + exists x, true, y. split; reflexivity.
    + exists y, x, true. split; reflexivity.
    + exists true, x, y. split; reflexivity.
    + exists y, true, x. split; reflexivity.
    + exists true, y, x. split; reflexivity.
  - intros He cfg. unfold code_required. now rewrite He.
Qed.

(** **** The code format *)

(** C4. [code_format] is [None] when no code is configured; it is NUMBER when
    the configured code is the sentinel REMOTE_CODE or is matched by the
    digit-only pattern (one or more digits, which [$] lets a single final
    newline follow), and TEXT for every other configured value. In
    particular REMOTE_CODE gives NUMBER and REMOTE_CODE_TEXT gives TEXT. *)
Theorem code_format_cases (s : MqttAlarm) :
  (CONF_CODE (_config s) = None -> code_format s = None) /\
  (forall code : string, CONF_CODE (_config s) = Some code ->
     (code = REMOTE_CODE \/ Re.search Re.DIGITS code = true ->
      code_format s = Some NUMBER) /\
     (~ (code = REMOTE_CODE \/ Re.search Re.DIGITS code = true) ->
      code_format s = Some TEXT) /\
     (Re.search Re.DIGITS code = true <->
      exists ds, ds <> "" /\ Re.all_digits ds = true /\
                 (code = ds \/ code = (ds ++ Re.newline)%string))) /\
  (CONF_CODE (_config s) = Some REMOTE_CODE -> code_format s = Some NUMBER) /\
  (CONF_CODE (_config s) = Some REMOTE_CODE_TEXT -> code_format s = Some TEXT).
Proof.
  unfold code_format. repeat split.
  - intros ->. reflexivity.
  - intros [-> | Hd]; rewrite H; simpl.
    + reflexivity.
    + now rewrite Hd, orb_true_r.
  - intros Hn. rewrite H. simpl.
    destruct (String.eqb_spec code REMOTE_CODE) as [E | E]; [elim Hn; now left|].
    destruct (Re.search Re.DIGITS code) eqn:Hd; [elim Hn; now right | reflexivity].
  - apply ReFacts.search_DIGITS.
  - apply ReFacts.search_DIGITS.
  - intros ->. reflexivity.
  - intros ->. reflexivity.
Qed.

(** C10. A configured code that is the empty string is reported as TEXT;
    [code_format] is [None] only when the code key is absent. *)
Theorem empty_code_is_text (s : MqttAlarm) :
  (CONF_CODE (_config s) = Some "" -> code_format s = Some TEXT) /\
  (code_format s = None <-> CONF_CODE (_config s) = None).
Proof.
  unfold code_format. split.
  - intros ->. reflexivity.
  - destruct (CONF_CODE (_config s)) as [code|]; [|tauto].
    destruct (_ || _); split; discriminate.
Qed.

End AlarmSpec.

(* ===================================================================== *)
(** ** The Litter-Robot vacuum: availability, state, services *)
(* ===================================================================== *)

Module VacuumSpec.
Import Eff Vacuum.

Local Open Scope Z_scope.

Lemma UNAVAILABLE_AFTER_microseconds :
  total_microseconds UNAVAILABLE_AFTER = 30 * 60 * 1000000.
Proof. reflexivity. Qed.

Lemma UNAVAILABLE_AFTER_fields :
  days UNAVAILABLE_AFTER = 0 /\ seconds UNAVAILABLE_AFTER = 1800 /\
  microseconds UNAVAILABLE_AFTER = 0.
Proof. repeat split. Qed.

(** C7. The entity is available exactly when less than 30 minutes (here in
    microseconds, the resolution of [datetime]) lie between [last_seen] and
    now; the status of the robot plays no part. *)
Theorem available_iff_seen_less_than_30_minutes_ago (robot : Robot) (now : datetime) :
  (available robot now = true <-> now - last_seen robot < 30 * 60 * 1000000) /\
  (available robot now = false <-> 30 * 60 * 1000000 <= now - last_seen robot) /\
  (forall st : LitterBoxStatus, available (with_status st robot) now = available robot now).
Proof.
  unfold available, datetime_gt, datetime_sub.
  rewrite UNAVAILABLE_AFTER_microseconds. split; [|split].
  - rewrite Z.ltb_lt. lia.
  - rewrite Z.ltb_ge. lia.
  - reflexivity.
Qed.

Lemma available_boundary (seen : datetime) :
  available (robot_seen seen) (seen + 30 * 60 * 1000000 - 1) = true /\
  available (robot_seen seen) (seen + 30 * 60 * 1000000) = false.
Proof.
  unfold available, datetime_gt, datetime_sub.
  rewrite UNAVAILABLE_AFTER_microseconds. simpl. split.
  - apply Z.ltb_lt. lia.
  - apply Z.ltb_ge. lia.
Qed.

Local Close Scope Z_scope.

(** The display holds the nine items, each under its key. *)
Lemma LITTER_BOX_STATUS_STATE_MAP_items :
  LITTER_BOX_STATUS_STATE_MAP !! CLEAN_CYCLE = Some STATE_CLEANING /\
  LITTER_BOX_STATUS_STATE_MAP !! EMPTY_CYCLE = Some STATE_CLEANING /\
  LITTER_BOX_STATUS_STATE_MAP !! CLEAN_CYCLE_COMPLETE = Some STATE_DOCKED /\
  LITTER_BOX_STATUS_STATE_MAP !! CAT_SENSOR_TIMING = Some STATE_DOCKED /\
  LITTER_BOX_STATUS_STATE_MAP !! DRAWER_FULL_1 = Some STATE_DOCKED /\
  LITTER_BOX_STATUS_STATE_MAP !! DRAWER_FULL_2 = Some STATE_DOCKED /\
  LITTER_BOX_STATUS_STATE_MAP !! READY = Some STATE_DOCKED /\
  LITTER_BOX_STATUS_STATE_MAP !! CAT_SENSOR_INTERRUPTED = Some STATE_PAUSED /\
  LITTER_BOX_STATUS_STATE_MAP !! OFF = Some STATE_OFF.
Proof.
  unfold LITTER_BOX_STATUS_STATE_MAP, dict_display. simpl.
  repeat split;
    repeat (first [ apply lookup_insert_eq | rewrite lookup_insert_ne by discriminate ]).
Qed.

(** Every further member of the enumeration is absent from the display. *)
Lemma LITTER_BOX_STATUS_STATE_MAP_other (name : string) :
  LITTER_BOX_STATUS_STATE_MAP !! OTHER name = None.
Proof.
  unfold LITTER_BOX_STATUS_STATE_MAP, dict_display. simpl.
  rewrite !lookup_insert_ne by discriminate. apply lookup_empty.
Qed.

(** C8. [state] is a total function of the status: OFF gives "off", READY
    gives "docked", CLEAN_CYCLE gives "cleaning", and every status that the
    mapping does not list gives "error", the default of the lookup; the
    statuses outside the nine named ones are all unlisted. *)
Theorem state_is_total_on_status (robot : Robot) :
  state (with_status OFF robot) = "off" /\
  state (with_status READY robot) = "docked" /\
  state (with_status CLEAN_CYCLE robot) = "cleaning" /\
  (forall st : LitterBoxStatus,
     LITTER_BOX_STATUS_STATE_MAP !! st = None -> state (with_status st robot) = "error") /\
  (forall name : string, state (with_status (OTHER name) robot) = "error") /\
  state robot = dict_get LITTER_BOX_STATUS_STATE_MAP (status robot) "error" /\
  In (state robot) ["cleaning"; "docked"; "paused"; "off"; "error"].
Proof.
  destruct LITTER_BOX_STATUS_STATE_MAP_items
    as (H1 & H2 & H3 & H4 & H5 & H6 & H7 & H8 & H9).
  unfold state, dict_get, with_status. cbn [status].
  split; [now rewrite H9|]. split; [now rewrite H7|]. split; [now rewrite H1|].
  split; [intros st ->; reflexivity|].
  split; [intros name; now rewrite LITTER_BOX_STATUS_STATE_MAP_other|].
  split; [reflexivity|].
  destruct (status robot) as [| | | | | | | | |name];
      rewrite ?H1, ?H2, ?H3, ?H4, ?H5, ?H6, ?H7, ?H8, ?H9,
        ?LITTER_BOX_STATUS_STATE_MAP_other; simpl; tauto.
Qed.

Section WithSdk.
Context {K : RobotSdk}.

Lemma perform_action_and_refresh_run (call : RobotCall) (j : list Event) :
  perform_action_and_refresh call j =
    match sdk_result call with
    | Returned success => (Returned success, j ++ [SdkCall call; Refresh])
    | Raised exn => (Raised exn, j ++ [SdkCall call])
    end.
Proof.
  unfold perform_action_and_refresh, robot_call, bind, emit, modify, ret. simpl.
  destruct (sdk_result call); [|reflexivity].
  now rewrite <- app_assoc.
Qed.

(** C9, as the code has it. The reset-waste-drawer and set-wait-time services
    log their deprecation warning first and then make the legacy SDK call
    all the same; the set-sleep-mode service logs no warning and makes its
    SDK call. After the call has returned the data is refreshed; when the
    call raises, the exception goes to the caller. *)
Theorem services_warn_then_run (s : Service) (j : list Event) :
  call_service s j =
    match sdk_result (legacy_call s) with
    | Returned _ =>
        (Returned tt, j ++ deprecation_warning s ++ [SdkCall (legacy_call s); follow_up s])
    | Raised exn =>
        (Raised exn, j ++ deprecation_warning s ++ [SdkCall (legacy_call s)])
    end /\
  match s with
  | SERVICE_SET_SLEEP_MODE _ _ => deprecation_warning s = []
  | _ => exists msg, deprecation_warning s = [Warning msg]
  end.
Proof.
  split.
  - destruct s as [|enabled start_time|minutes]; simpl.
    + unfold async_reset_waste_drawer, robot_call, coordinator_async_set_updated_data,
        _LOGGER_warning, bind, emit, modify, ret. simpl.
      destruct (sdk_result reset_waste_drawer); rewrite <- !app_assoc; reflexivity.
    + unfold async_set_sleep_mode, bind at 1.
      rewrite perform_action_and_refresh_run.
      destruct (sdk_result _); reflexivity.
    + unfold async_set_wait_time, _LOGGER_warning, bind, emit, modify at 1. simpl.
      rewrite perform_action_and_refresh_run.
      destruct (sdk_result _); rewrite <- !app_assoc; reflexivity.
  - destruct s; simpl; eauto.
Qed.

End WithSdk.

(** Against C9 as stated (a deprecation warning from each of the three
    services): an invocation of set-sleep-mode logs no warning at all, the
    journal of the call starts with the SDK call. *)
Lemma set_sleep_mode_logs_no_warning :
  ~ (forall (K : RobotSdk) (s : Service) (j : list Event),
       exists msg rest,
         snd (call_service s j) = j ++ Warning msg :: SdkCall (legacy_call s) :: rest) /\
  snd (@call_service sdk_ok (SERVICE_SET_SLEEP_MODE true None) []) =
    [SdkCall (set_sleep_mode true None); Refresh] /\
  existsb is_warning (snd (@call_service sdk_ok (SERVICE_SET_SLEEP_MODE true None) [])) = false.
Proof.
  split; [|split; reflexivity].
  intros H. destruct (H sdk_ok (SERVICE_SET_SLEEP_MODE true None) []) as [msg [rest Hj]].
  discriminate Hj.
Qed.

End VacuumSpec.

(* ===================================================================== *)
(** ** The statements at concrete inputs *)
(* ===================================================================== *)

Module Examples.
Import Py Eff Alarm AlarmSpec.

Example disarm_with_the_code :
  @async_alarm_disarm plain_runtime (Some "1234") (init panel) =
    (Returned tt,
     {| self := self (init panel);
        journal := [AsyncPublish "home/alarm/set" "DISARM" 0%Z false "utf-8"] |}).
Proof. reflexivity. Qed.

Example disarm_with_a_wrong_code :
  @async_alarm_disarm plain_runtime (Some "4321") (init panel) =
    (Returned tt,
     {| self := self (init panel);
        journal := [Warning "Wrong code entered for %s" "disarming"] |}).
Proof. reflexivity. Qed.

Example disarm_without_a_code :
  snd (@async_alarm_disarm plain_runtime None (init panel)) =
    {| self := self (init panel);
       journal := [Warning "Wrong code entered for %s" "disarming"] |}.
Proof. reflexivity. Qed.

Example remote_code_takes_any_code :
  journal (snd (@async_alarm_arm_away plain_runtime (Some "0000") (init remote_panel))) =
    [AsyncPublish "home/alarm/set" "ARM_AWAY" 0%Z false "utf-8"].
Proof. reflexivity. Qed.

Example remote_code_refuses_the_empty_code :
  journal (snd (@async_alarm_arm_away plain_runtime (Some "") (init remote_panel))) =
    [Warning "Wrong code entered for %s" "arming away"].
Proof. reflexivity. Qed.

Example arm_away_without_code_required :
  journal (snd (@async_alarm_arm_away plain_runtime None
                  (init (with_code (Some "1234") false true true panel)))) =
    [AsyncPublish "home/alarm/set" "ARM_AWAY" 0%Z false "utf-8"].
Proof. reflexivity. Qed.

Example messages_then_actions :
  _state (self (@run plain_runtime
                  [Message "armed_home"; Call alarm_disarm (Some "1234"); Message "ringing"]
                  (init panel))) = Some "armed_home".
Proof. reflexivity. Qed.

Example code_format_of_digits : code_format (entity (Some "1234")) = Some NUMBER.
Proof. reflexivity. Qed.

Example code_format_of_letters : code_format (entity (Some "12a4")) = Some TEXT.
Proof. reflexivity. Qed.

Example code_format_of_digits_and_newline :
  code_format (entity (Some ("1234" ++ Re.newline)%string)) = Some NUMBER.
Proof. reflexivity. Qed.

Lemma required_action_publishes_iff_code_accepted_witness :
  code_required (_config (self (init panel))) alarm_disarm = true /\
  exists new : list Event,
    snd (@handler plain_runtime alarm_disarm (Some "1234") (init panel)) =
      {| self := self (init panel); journal := journal (init panel) ++ new |} /\
    (existsb is_publish new = true <->
     code_accepted (_config (self (init panel))) (Some "1234")) /\
    (code_accepted (_config (self (init panel))) (Some "1234") ->
     new = [@publication plain_runtime (_config (self (init panel)))
              (payload_of (_config (self (init panel))) alarm_disarm) (Some "1234")]) /\
    (~ code_accepted (_config (self (init panel))) (Some "1234") ->
     new = [Warning "Wrong code entered for %s" (label_of alarm_disarm)] /\
     fst (@handler plain_runtime alarm_disarm (Some "1234") (init panel)) = Returned tt).
Proof.
  split; [reflexivity|].
  apply (@required_action_publishes_iff_code_accepted plain_runtime
           alarm_disarm (Some "1234") (init panel)).
  reflexivity.
Defined.

Lemma message_received_sets_recognized_state_witness :
  (In "armed_away" RECOGNIZED_STATES /\
   @message_received plain_runtime "armed_away" (init panel) =
     (Returned tt,
      {| self := {| _config := panel; _state := Some "armed_away" |};
         journal := [AsyncWriteHaState (Some "armed_away")] |})) /\
  (~ In "ringing" RECOGNIZED_STATES /\
   @message_received plain_runtime "ringing" (init panel) =
     (Returned tt,
      {| self := self (init panel);
         journal := [Warning "Received unexpected payload: %s" "ringing"] |})).
Proof.
  assert (Hin : In "armed_away" RECOGNIZED_STATES).
  { apply PyFacts.py_in_In. reflexivity. }
  assert (Hout : ~ In "ringing" RECOGNIZED_STATES).
  { apply PyFacts.py_in_not_In. reflexivity. }
  split; (split; [assumption|]).
  - exact (proj1 (@message_received_sets_recognized_state plain_runtime
                    "armed_away" (init panel)) Hin).
  - exact (proj2 (@message_received_sets_recognized_state plain_runtime
                    "ringing" (init panel)) Hout).
Defined.

Lemma only_messages_change_state_witness :
  _state (self (@step plain_runtime (init panel) (Message "triggered"))) <>
    _state (self (init panel)) /\
  exists msg_payload,
    Message "triggered" = Message msg_payload /\
    In (@value_template plain_runtime (CONF_VALUE_TEMPLATE (_config (self (init panel))))
          msg_payload) RECOGNIZED_STATES /\
    _state (self (@step plain_runtime (init panel) (Message "triggered"))) =
      Some (@value_template plain_runtime
              (CONF_VALUE_TEMPLATE (_config (self (init panel)))) msg_payload).
Proof.
  assert (H : _state (self (@step plain_runtime (init panel) (Message "triggered"))) <>
              _state (self (init panel))).
  { simpl. discriminate. }
  split; [exact H|].
  exact (proj2 (@only_messages_change_state plain_runtime)
           (Message "triggered") (init panel) H).
Defined.

Lemma code_required_is_per_group_witness :
  (flag_of alarm_disarm <> flag_of alarm_trigger /\
   exists arm disarm trigger : bool,
     code_required (with_code (CONF_CODE panel) arm disarm trigger panel) alarm_disarm = true /\
     code_required (with_code (CONF_CODE panel) arm disarm trigger panel) alarm_trigger = false) /\
  (flag_of alarm_arm_home = flag_of alarm_arm_night /\
   code_required panel alarm_arm_home = code_required panel alarm_arm_night).
Proof.
  assert (Hne : flag_of alarm_disarm <> flag_of alarm_trigger).
  { simpl. discriminate. }
  split; split.
  - exact Hne.
  - exact (proj1 (proj2 (code_required_is_per_group alarm_disarm alarm_trigger))
             Hne panel true false).
  - reflexivity.
  - exact (proj2 (proj2 (code_required_is_per_group alarm_arm_home alarm_arm_night))
             eq_refl panel).
Defined.

Lemma code_format_cases_witness :
  (CONF_CODE (_config (entity None)) = None /\ code_format (entity None) = None) /\
  (CONF_CODE (_config (entity (Some "1234"))) = Some "1234" /\
   Re.search Re.DIGITS "1234" = true /\
   code_format (entity (Some "1234")) = Some NUMBER) /\
  (CONF_CODE (_config (entity (Some "abc"))) = Some "abc" /\
   ~ ("abc" = REMOTE_CODE \/ Re.search Re.DIGITS "abc" = true) /\
   code_format (entity (Some "abc")) = Some TEXT) /\
  (CONF_CODE (_config (entity (Some REMOTE_CODE))) = Some REMOTE_CODE /\
   code_format (entity (Some REMOTE_CODE)) = Some NUMBER) /\
  (CONF_CODE (_config (entity (Some REMOTE_CODE_TEXT))) = Some REMOTE_CODE_TEXT /\
   code_format (entity (Some REMOTE_CODE_TEXT)) = Some TEXT).
Proof.
  assert (Hn : ~ ("abc" = REMOTE_CODE \/ Re.search Re.DIGITS "abc" = true)).
  { intros [H | H]; discriminate H. }
  split; [|split; [|split; [|split]]].
  - split; [reflexivity|].
    exact (proj1 (code_format_cases (entity None)) eq_refl).
  - split; [reflexivity|]. split; [reflexivity|].
    exact (proj1 (proj1 (proj2 (code_format_cases (entity (Some "1234")))) "1234" eq_refl)
             (or_intror eq_refl)).
  - split; [reflexivity|]. split; [exact Hn|].
    exact (proj1 (proj2 (proj1 (proj2 (code_format_cases (entity (Some "abc")))) "abc" eq_refl))
             Hn).
  - split; [reflexivity|].
    exact (proj1 (proj2 (proj2 (code_format_cases (entity (Some REMOTE_CODE))))) eq_refl).
  - split; [reflexivity|].
    exact (proj2 (proj2 (proj2 (code_format_cases (entity (Some REMOTE_CODE_TEXT))))) eq_refl).
Defined.

Lemma empty_code_is_text_witness :
  CONF_CODE (_config (entity (Some ""))) = Some "" /\
  code_format (entity (Some "")) = Some TEXT.
Proof.
  split; [reflexivity|].
  exact (proj1 (empty_code_is_text (entity (Some ""))) eq_refl).
Defined.

Lemma state_is_total_on_status_witness :
  Vacuum.LITTER_BOX_STATUS_STATE_MAP !! Vacuum.OTHER "PAUSED" = None /\
  Vacuum.state (Vacuum.with_status (Vacuum.OTHER "PAUSED") (Vacuum.robot_seen 0%Z)) = "error".
Proof.
  assert (H : Vacuum.LITTER_BOX_STATUS_STATE_MAP !! Vacuum.OTHER "PAUSED" = None).
  { vm_compute. reflexivity. }
  split; [exact H|].
  exact (proj1 (proj2 (proj2 (proj2 (VacuumSpec.state_is_total_on_status (Vacuum.robot_seen 0%Z)))))
           (Vacuum.OTHER "PAUSED") H).
Defined.

Example vacuum_states :
  Vacuum.state (Vacuum.robot_seen 0%Z) = "docked" /\
  Vacuum.state (Vacuum.with_status Vacuum.CAT_SENSOR_INTERRUPTED (Vacuum.robot_seen 0%Z)) = "paused" /\
  Vacuum.state (Vacuum.with_status Vacuum.EMPTY_CYCLE (Vacuum.robot_seen 0%Z)) = "cleaning".
Proof. vm_compute. repeat split. Qed.

Example reset_waste_drawer_when_the_sdk_raises :
  exists msg,
    @Vacuum.call_service Vacuum.sdk_down Vacuum.SERVICE_RESET_WASTE_DRAWER [] =
      (Raised "LitterRobotException",
       [Vacuum.Warning msg; Vacuum.SdkCall Vacuum.reset_waste_drawer]).
Proof. eexists. reflexivity. Qed.

Example set_wait_time_warns_then_runs :
  exists msg,
    @Vacuum.call_service Vacuum.sdk_ok (Vacuum.SERVICE_SET_WAIT_TIME 7%Z) [] =
      (Returned tt,
       [Vacuum.Warning msg; Vacuum.SdkCall (Vacuum.set_wait_time 7%Z); Vacuum.Refresh]).
Proof. eexists. reflexivity. Qed.

End Examples.

(* ===================================================================== *)
(** ** The alarm control panel: further properties *)
(* ===================================================================== *)

Module AlarmMore.
Import Py Eff Alarm AlarmExt AlarmSpec.

Local Open Scope Z_scope.

Lemma land_lor_keeps (m f g : Z) : Z.land m f = f -> Z.land (Z.lor m g) f = f.
Proof.
  intros H. apply Z.bits_inj'. intros n Hn.
  assert (Hb : Z.testbit (Z.land m f) n = Z.testbit f n) by now rewrite H.
  rewrite Z.land_spec in Hb. rewrite Z.land_spec, Z.lor_spec.
  destruct (Z.testbit m n), (Z.testbit g n), (Z.testbit f n); simpl in *; congruence.
Qed.

Lemma land_lor_new (m g : Z) : Z.land (Z.lor m g) g = g.
Proof.
  apply Z.bits_inj'. intros n Hn. rewrite Z.land_spec, Z.lor_spec.
  destruct (Z.testbit m n), (Z.testbit g n); reflexivity.
Qed.

(** X9. Whatever the values of the feature flags, the mask that
    [supported_features] returns contains each of the six features named:
    arm home, arm away, arm night, arm vacation, arm custom bypass, trigger. *)
Theorem supported_features_has_all_six (F : AlarmControlPanelEntityFeature) :
  Forall (fun f => Z.land supported_features f = f)
    [ARM_HOME; ARM_AWAY; ARM_NIGHT; ARM_VACATION; ARM_CUSTOM_BYPASS; TRIGGER].
Proof.
  unfold supported_features.
  repeat constructor;
    repeat first [ apply Z.land_diag | apply land_lor_new | apply land_lor_keeps ].
Qed.

Local Close Scope Z_scope.

Section WithRuntime.
Context {R : Runtime}.

(** X1. An action whose code-required flag is false publishes its payload
    whatever code is supplied (none, empty, wrong): the call is exactly
    [_publish], it leaves the one publication in the journal and no warning,
    and the entity is as before. *)
Theorem action_without_required_code_always_publishes
    (a : Action) (code : option string) (w : World) :
  code_required (_config (self w)) a = false ->
  handler a code w = _publish code (payload_of (_config (self w)) a) w /\
  snd (handler a code w) =
    {| self := self w;
       journal := journal w ++
                  [publication (_config (self w)) (payload_of (_config (self w)) a) code] |}.
Proof.
  intros Hreq. rewrite handler_run, Hreq. simpl. split; [reflexivity|].
  now rewrite _publish_run.
Qed.

(** X2. When [code_format] is [None], that is when no code is configured, no
    action is ever refused: with all three flags set or not, and for every
    supplied code, the call publishes and logs no warning. *)
Theorem no_code_configured_never_refuses (a : Action) (code : option string) (w : World) :
  code_format (self w) = None ->
  snd (handler a code w) =
    {| self := self w;
       journal := journal w ++
                  [publication (_config (self w)) (payload_of (_config (self w)) a) code] |}.
Proof.
  intros Hfmt. rewrite handler_run.
  assert (Hacc : accepts (_config (self w)) code = true).
  { unfold code_format in Hfmt. unfold accepts.
    destruct (CONF_CODE (_config (self w))) as [c|]; [|reflexivity].
    destruct (_ || _); discriminate Hfmt. }
  rewrite Hacc, andb_false_r. now rewrite _publish_run.
Qed.

(** X3. A call of an action leaves exactly one entry in the journal: either
    the warning about the wrong code, and then the call returns, or the
    publication. It never hands a state to the host and never changes the
    entity. *)
Theorem action_call_leaves_one_entry (a : Action) (code : option string) (w : World) :
  exists e : Event,
    snd (handler a code w) = {| self := self w; journal := journal w ++ [e] |} /\
    is_write e = false /\
    ((e = Warning "Wrong code entered for %s" (label_of a) /\
      fst (handler a code w) = Returned tt) \/
     e = publication (_config (self w)) (payload_of (_config (self w)) a) code).
Proof.
  rewrite handler_run.
  destruct (code_required (_config (self w)) a && negb (accepts (_config (self w)) code)).
  - eexists. split; [reflexivity|]. split; [reflexivity|]. left. split; reflexivity.
  - rewrite _publish_run. eexists. split; [reflexivity|]. split; [reflexivity|].
    now right.
Qed.

(** X4. A call of an action raises exactly when the call is not refused and
    [async_publish] raises for the rendered payload, and then with that very
    exception; a refused call always returns. *)
Theorem action_raises_only_what_publish_raises
    (a : Action) (code : option string) (w : World) (exn : string) :
  fst (handler a code w) = Raised exn <->
  (code_required (_config (self w)) a = false \/ code_accepted (_config (self w)) code) /\
  publish_error (CONF_COMMAND_TOPIC (_config (self w)))
    (command_template (CONF_COMMAND_TEMPLATE (_config (self w)))
       (payload_of (_config (self w)) a) code) = Some exn.
Proof.
  rewrite handler_run, <- accepts_iff.
    destruct (code_required (_config (self w)) a);
      destruct (accepts (_config (self w)) code); simpl;
      rewrite ?_publish_run; simpl.
    + destruct (publish_error _ _) as [e|]; split.
      * intros H. inversion H. split; [now right | reflexivity].
      * intros [_ H]. inversion H. reflexivity.
      * discriminate.
      * intros [_ H]. discriminate H.
    + split; [discriminate|]. intros [[H | H] _]; discriminate H.
    + destruct (publish_error _ _) as [e|]; split.
      * intros H. inversion H. split; [now left | reflexivity].
      * intros [_ H]. inversion H. reflexivity.
      * discriminate.
      * intros [_ H]. discriminate H.
    + destruct (publish_error _ _) as [e|]; split.
      * intros H. inversion H. split; [now left | reflexivity].
      * intros [_ H]. inversion H. reflexivity.
      * discriminate.
      * intros [_ H]. discriminate H.
Qed.

Lemma run_app (xs ys : list Input) (w : World) : run (xs ++ ys) w = run ys (run xs w).
Proof. unfold run. apply fold_left_app. Qed.

Lemma run_config (inputs : list Input) (w : World) :
  _config (self (run inputs w)) = _config (self w).
Proof.
  revert w. induction inputs as [|i inputs IH]; intros w; simpl.
  - reflexivity.
  - change (_config (self (run inputs (step w i))) = _config (self w)).
    now rewrite IH, step_config.
Qed.

Lemma step_journal (w : World) (i : Input) :
  journal (step w i) = journal w ++ [entry (_config (self w)) i].
Proof.
  destruct i as [msg_payload | a code]; unfold step, entry, recognized.
  - rewrite message_received_run. cbv zeta.
    destruct (py_in _ _); reflexivity.
  - rewrite handler_run.
    destruct (code_required _ a && negb (accepts _ code)); [reflexivity|].
    now rewrite _publish_run.
Qed.

(** X6. What the entity sends out does not depend on the alarm state it
    holds: after any sequence of inputs the journal has gained one entry per
    input, in order, and the entry of an input is determined by the
    configuration and that input alone. In particular a command is published
    whatever the current state is. *)
Theorem journal_of_run (inputs : list Input) (w : World) :
  journal (run inputs w) = journal w ++ map (entry (_config (self w))) inputs.
Proof.
  revert w. induction inputs as [|i inputs IH]; intros w; simpl.
  - now rewrite app_nil_r.
  - change (journal (run inputs (step w i)) =
            journal w ++ entry (_config (self w)) i :: map (entry (_config (self w))) inputs).
    rewrite IH, step_journal, step_config, <- app_assoc. reflexivity.
Qed.

Lemma step_unrecognized (w : World) (i : Input) :
  recognized (_config (self w)) i = false -> self (step w i) = self w.
Proof.
  destruct i as [msg_payload | a code]; unfold step, recognized; intros H.
  - rewrite message_received_state. cbv zeta. now rewrite H.
  - apply handler_self.
Qed.

Lemma run_unrecognized (inputs : list Input) (w : World) :
  forallb (fun i => negb (recognized (_config (self w)) i)) inputs = true ->
  self (run inputs w) = self w.
Proof.
  revert w. induction inputs as [|i inputs IH]; intros w H; simpl in *.
  - reflexivity.
  - apply andb_true_iff in H as [Hi H]. apply negb_true_iff in Hi.
    change (self (run inputs (step w i)) = self w).
    rewrite IH; rewrite step_unrecognized by exact Hi; [reflexivity | exact H].
Qed.

(** X5. The most recent recognized message wins. If the last message with a
    recognized rendered payload in a sequence of inputs rendered [s], the
    state after the sequence is [s], whatever came before and whatever
    action calls and unrecognized messages came after; a sequence without
    any recognized message leaves the state as it was. *)
Theorem state_is_last_recognized_message (w : World) :
  (forall (before after : list Input) (msg_payload : string),
     In (value_template (CONF_VALUE_TEMPLATE (_config (self w))) msg_payload)
        RECOGNIZED_STATES ->
     forallb (fun i => negb (recognized (_config (self w)) i)) after = true ->
     _state (self (run (before ++ Message msg_payload :: after) w)) =
       Some (value_template (CONF_VALUE_TEMPLATE (_config (self w))) msg_payload)) /\
  (forall inputs : list Input,
     forallb (fun i => negb (recognized (_config (self w)) i)) inputs = true ->
     _state (self (run inputs w)) = _state (self w)).
Proof.
  split.
  - intros before after msg_payload Hin Hafter.
    rewrite run_app. simpl.
    change (_state (self (run after (step (run before w) (Message msg_payload)))) =
            Some (value_template (CONF_VALUE_TEMPLATE (_config (self w))) msg_payload)).
    assert (Hcfg : _config (self (step (run before w) (Message msg_payload))) =
                   _config (self w)).
    { now rewrite step_config, run_config. }
    rewrite run_unrecognized by (rewrite Hcfg; exact Hafter).
    unfold step. rewrite message_received_state. cbv zeta.
    assert (Hc : _config (self (run before w)) = _config (self w))
      by apply run_config.
    rewrite Hc. apply PyFacts.py_in_In in Hin. now rewrite Hin.
  - intros inputs H. now rewrite run_unrecognized.
Qed.

(** X10. The configuration is never written: after any sequence of messages
    and action calls the entity holds the configuration it was built with,
    so the code, the flags, the topics and the payloads in force are those
    of the setup. *)
Theorem config_is_never_written (config : Config) (inputs : list Input) :
  _config (self (run inputs (init config))) = config.
Proof.
  assert (Hrun : forall w : World, _config (self (run inputs w)) = _config (self w)).
  { induction inputs as [|i inputs IH]; intros w.
    - reflexivity.
    - change (_config (self (run inputs (step w i))) = _config (self w)).
      rewrite IH. destruct i as [msg_payload | a code]; unfold step.
      + rewrite message_received_state. cbv zeta. destruct (py_in _ _); reflexivity.
      + now rewrite handler_self. }
  now rewrite Hrun.
Qed.

(** X7. A recognized message is handed to the host every time it arrives:
    when the same message arrives twice the state after the second is the
    state after the first, and the journal holds two state writes. *)
Theorem repeated_message_notifies_again (msg_payload : string) (w : World) :
  In (value_template (CONF_VALUE_TEMPLATE (_config (self w))) msg_payload)
     RECOGNIZED_STATES ->
  self (run [Message msg_payload; Message msg_payload] w) =
    self (run [Message msg_payload] w) /\
  journal (run [Message msg_payload; Message msg_payload] w) =
    journal w ++
    [ AsyncWriteHaState
        (Some (value_template (CONF_VALUE_TEMPLATE (_config (self w))) msg_payload));
      AsyncWriteHaState
        (Some (value_template (CONF_VALUE_TEMPLATE (_config (self w))) msg_payload)) ].
Proof.
  intros Hin. apply PyFacts.py_in_In in Hin.
  unfold run, fold_left, step.
  rewrite (message_received_run msg_payload w). cbv zeta. rewrite Hin.
  rewrite message_received_run. cbv zeta. cbn [snd self _config journal].
  rewrite Hin. cbn [snd self _config journal]. rewrite <- app_assoc. split; reflexivity.
Qed.

(** X8. [_validate_code] does not always return a [bool]. Without a
    configured code, or with the configured code supplied, it returns [True].
    With a sentinel configured and another, non-empty code supplied it
    returns that code itself. With REMOTE_CODE_TEXT configured and no code or
    the empty code supplied it returns [None] or the empty string. In every
    other case it returns [False]. *)
Theorem _validate_code_value (code : option string) (st : string) (w : World) :
  fst (_validate_code code st w) =
    Returned
      match CONF_CODE (_config (self w)) with
      | None => PyBool true
      | Some c =>
          if py_eq (of_option code) (PyStr c) then PyBool true
          else if String.eqb c REMOTE_CODE
               then (if truthy (of_option code) then of_option code else PyBool false)
               else if String.eqb c REMOTE_CODE_TEXT then of_option code
                    else PyBool false
      end.
Proof.
  unfold _validate_code. run_monad.
  set (check := py_or _ _).
  assert (Hfst : forall (m : M World unit) (v : pyval),
             (exists w', m w = (Returned tt, w')) ->
             fst (let (o, w') := m w in
                  match o with
                  | Returned _ => (Returned v, w')
                  | Raised exn => (Raised exn, w')
                  end) = Returned v).
  { intros m v [w' ->]. reflexivity. }
  rewrite Hfst by (destruct (negb (truthy check)); eexists; reflexivity).
  f_equal. subst check.
  destruct (CONF_CODE (_config (self w))) as [c|]; [|reflexivity].
  destruct code as [[|a s]|]; unfold py_or, py_and, of_option, py_eq, is_none;
    (destruct (String.eqb c REMOTE_CODE) eqn:Hrc;
     [ apply String.eqb_eq in Hrc; subst c
     | destruct (String.eqb c REMOTE_CODE_TEXT) ]).
  - reflexivity.
  - destruct (String.eqb "" c); reflexivity.
  - destruct (String.eqb "" c); reflexivity.
  - destruct (String.eqb (String a s) REMOTE_CODE); reflexivity.
  - destruct (String.eqb (String a s) c); reflexivity.
  - destruct (String.eqb (String a s) c); reflexivity.
  - reflexivity.
  - reflexivity.
  - reflexivity.
Qed.

Lemma digits_line_is_no_sentinel (ds : string) :
  ds <> "" -> Re.all_digits ds = true ->
  (ds ++ Re.newline)%string <> ds /\
  String.eqb (ds ++ Re.newline)%string REMOTE_CODE = false /\
  String.eqb (ds ++ Re.newline)%string REMOTE_CODE_TEXT = false.
Proof.
  intros Hne Hd. split; [|split].
  - intros H. clear Hne Hd. induction ds as [|c ds IH].
    + discriminate H.
    + change (String c (ds ++ Re.newline)%string = String c ds) in H.
      inversion H. auto.
  - destruct ds as [|c ds]; [now elim Hne|].
    apply String.eqb_neq. intros H.
    change (String c (ds ++ Re.newline)%string = REMOTE_CODE) in H.
    inversion H; subst. discriminate Hd.
  - destruct ds as [|c ds]; [now elim Hne|].
    apply String.eqb_neq. intros H.
    change (String c (ds ++ Re.newline)%string = REMOTE_CODE_TEXT) in H.
    inversion H; subst. discriminate Hd.
Qed.

(** X15. A configured code of digits followed by a final newline is reported
    as NUMBER, yet the digits alone are refused: only the code with its
    newline is accepted by an action that requires the code. *)
Theorem digits_with_newline_need_the_newline
    (ds : string) (a : Action) (w : World) :
  ds <> "" -> Re.all_digits ds = true ->
  CONF_CODE (_config (self w)) = Some (ds ++ Re.newline)%string ->
  code_required (_config (self w)) a = true ->
  code_format (self w) = Some NUMBER /\
  journal (snd (handler a (Some ds) w)) =
    journal w ++ [Warning "Wrong code entered for %s" (label_of a)] /\
  journal (snd (handler a (Some (ds ++ Re.newline)%string) w)) =
    journal w ++ [publication (_config (self w)) (payload_of (_config (self w)) a)
                    (Some (ds ++ Re.newline)%string)].
Proof.
  intros Hne Hd Hcode Hreq.
  destruct (digits_line_is_no_sentinel ds Hne Hd) as (Hneq & Hrc & Hrt).
  split; [|split].
  - unfold code_format. rewrite Hcode.
    assert (Hs : Re.search Re.DIGITS (ds ++ Re.newline)%string = true).
    { apply ReFacts.search_DIGITS. exists ds. auto. }
    now rewrite Hs, orb_true_r.
  - rewrite handler_run, Hreq.
    assert (Hacc : accepts (_config (self w)) (Some ds) = false).
    { unfold accepts. rewrite Hcode. cbn [of_option py_eq]. rewrite Hrc, Hrt.
      rewrite orb_false_r. simpl. apply String.eqb_neq. congruence. }
    now rewrite Hacc.
  - rewrite handler_run, Hreq.
    assert (Hacc : accepts (_config (self w)) (Some (ds ++ Re.newline)%string) = true).
    { unfold accepts. rewrite Hcode. cbn [of_option py_eq].
      now rewrite String.eqb_refl. }
    rewrite Hacc. simpl. now rewrite _publish_run.
Qed.

End WithRuntime.

End AlarmMore.

(* ===================================================================== *)
(** ** The Litter-Robot vacuum: further properties *)
(* ===================================================================== *)

Module VacuumMore.
Import Eff Vacuum VacuumExt VacuumSpec.

Lemma available_unfold (robot : Robot) (now : datetime) :
  available robot now = (now - 1800000000 <? last_seen robot)%Z.
Proof. reflexivity. Qed.

(** X11. Staleness only grows with time. A robot that is unavailable stays
    unavailable at every later time until it is seen again; a robot that is
    available was available at every earlier time; being seen later never
    makes a robot unavailable; and a robot whose [last_seen] is not in the
    past (a clock ahead of the host's) is available. *)
Theorem available_is_monotone (robot : Robot) (now later : datetime) :
  (now <= later)%Z ->
  (available robot now = false -> available robot later = false) /\
  (available robot later = true -> available robot now = true) /\
  (forall seen : datetime,
     (last_seen robot <= seen)%Z -> available robot now = true ->
     available (robot_seen seen) now = true) /\
  ((now <= last_seen robot)%Z -> available robot now = true).
Proof.
  intros Hle. rewrite !available_unfold. unfold robot_seen. cbn [last_seen].
  repeat split.
  - rewrite !Z.ltb_ge. lia.
  - rewrite !Z.ltb_lt. lia.
  - intros seen Hs. rewrite !available_unfold. unfold robot_seen. cbn [last_seen].
    rewrite !Z.ltb_lt. lia.
  - rewrite !Z.ltb_lt. lia.
Qed.

Lemma state_of_status (robot : Robot) :
  state robot =
    match status robot with
    | CLEAN_CYCLE | EMPTY_CYCLE => "cleaning"
    | CLEAN_CYCLE_COMPLETE | CAT_SENSOR_TIMING | DRAWER_FULL_1 | DRAWER_FULL_2 | READY =>
        "docked"
    | CAT_SENSOR_INTERRUPTED => "paused"
    | OFF => "off"
    | OTHER _ => "error"
    end.
Proof.
  destruct LITTER_BOX_STATUS_STATE_MAP_items
    as (H1 & H2 & H3 & H4 & H5 & H6 & H7 & H8 & H9).
  unfold state, dict_get.
  destruct (status robot) as [| | | | | | | | |name];
    rewrite ?H1, ?H2, ?H3, ?H4, ?H5, ?H6, ?H7, ?H8, ?H9,
      ?LITTER_BOX_STATUS_STATE_MAP_other; reflexivity.
Qed.

(** X12. The statuses behind each state. The state is "cleaning" exactly for
    the clean and empty cycles; "docked" exactly for a complete clean cycle,
    cat sensor timing, the two drawer-full statuses and ready; "paused"
    exactly for an interrupted cat sensor; "off" exactly for off; and
    "error" exactly for the statuses beyond these nine. *)
Theorem state_preimages (robot : Robot) :
  (state robot = "cleaning" <-> In (status robot) [CLEAN_CYCLE; EMPTY_CYCLE]) /\
  (state robot = "docked" <->
   In (status robot)
      [CLEAN_CYCLE_COMPLETE; CAT_SENSOR_TIMING; DRAWER_FULL_1; DRAWER_FULL_2; READY]) /\
  (state robot = "paused" <-> status robot = CAT_SENSOR_INTERRUPTED) /\
  (state robot = "off" <-> status robot = OFF) /\
  (state robot = "error" <-> exists name, status robot = OTHER name).
Proof.
  rewrite state_of_status.
  destruct (status robot) as [| | | | | | | | |name]; simpl;
    repeat split; intros H;
    try discriminate H; try reflexivity; try tauto; try (now eexists);
    try (destruct H as [name' H]; discriminate H);
    repeat (destruct H as [H | H]; try discriminate H); try contradiction.
Qed.

Lemma append_same_left (s t : string) : (s ++ t)%string = s -> t = "".
Proof.
  induction s as [|c s IH]; intros H.
  - exact H.
  - change (String c (s ++ t)%string = String c s) in H. inversion H. auto.
Qed.

Lemma append_empty (s : string) : (s ++ "")%string = s.
Proof.
  induction s as [|c s IH]; [reflexivity|].
  change (String c (s ++ "")%string = String c s). now rewrite IH.
Qed.

Lemma length_append (s t : string) :
  String.length (s ++ t)%string = String.length s + String.length t.
Proof.
  induction s as [|c s IH]; [reflexivity|].
  change (S (String.length (s ++ t)%string) = S (String.length s + String.length t)).
  now rewrite IH.
Qed.

(** X13. The status string tells whether the robot sleeps: it is the status
    text alone exactly when the robot is not sleeping, and otherwise the
    status text followed by " (Sleeping)", eleven characters longer. Two
    robots with the same status text show the same string only if both
    sleep or neither does. *)
Theorem status_shows_sleeping (robot other : Robot) :
  (status_property robot = status_text robot <-> is_sleeping robot = false) /\
  (is_sleeping robot = true ->
   status_property robot = (status_text robot ++ " (Sleeping)")%string /\
   String.length (status_property robot) = String.length (status_text robot) + 11) /\
  (status_text robot = status_text other ->
   status_property robot = status_property other ->
   is_sleeping robot = is_sleeping other).
Proof.
  unfold status_property. split; [|split].
  - destruct (is_sleeping robot); split; intros H; try discriminate H.
    + apply append_same_left in H. discriminate H.
    + reflexivity.
    + apply append_empty.
  - intros ->. split; [reflexivity | apply length_append].
  - intros Ht Hs. rewrite Ht in Hs.
    assert (Hlen := f_equal String.length Hs). rewrite !length_append in Hlen.
    destruct (is_sleeping robot), (is_sleeping other); simpl in Hlen; try reflexivity; lia.
Qed.


End VacuumMore.

(* ===================================================================== *)
(** ** The further properties at concrete inputs *)
(* ===================================================================== *)

Module MoreExamples.
Import Py Eff Alarm AlarmExt AlarmSpec AlarmMore.

Example disarm_raises_what_the_client_raises :
  @async_alarm_disarm
     {| value_template := fun _ raw => raw;
        command_template := fun _ action _ => action;
        publish_error := fun _ _ => Some "HomeAssistantError" |}
     (Some "1234") (init panel) =
    (Raised "HomeAssistantError",
     {| self := self (init panel);
        journal := [AsyncPublish "home/alarm/set" "DISARM" 0 false "utf-8"] |}).
Proof. reflexivity. Qed.

Example journal_of_three_inputs :
  journal (@run plain_runtime
             [Message "armed_home"; Call alarm_disarm (Some "0000"); Call alarm_disarm (Some "1234")]
             (init panel)) =
    [ AsyncWriteHaState (Some "armed_home");
      Warning "Wrong code entered for %s" "disarming";
      AsyncPublish "home/alarm/set" "DISARM" 0 false "utf-8" ].
Proof. reflexivity. Qed.

Example validate_returns_the_code :
  fst (_validate_code (Some "0000") "arming away" (init remote_panel)) =
    Returned (PyStr "0000").
Proof. reflexivity. Qed.

Lemma action_without_required_code_always_publishes_witness :
  code_required (_config (self (init (with_code (Some "1234") false true true panel))))
    alarm_arm_home = false /\
  snd (@handler plain_runtime alarm_arm_home (Some "0000")
         (init (with_code (Some "1234") false true true panel))) =
    {| self := self (init (with_code (Some "1234") false true true panel));
       journal := [AsyncPublish "home/alarm/set" "ARM_HOME" 0 false "utf-8"] |}.
Proof.
  split; [reflexivity|].
  exact (proj2 (@action_without_required_code_always_publishes plain_runtime
                  alarm_arm_home (Some "0000")
                  (init (with_code (Some "1234") false true true panel)) eq_refl)).
Defined.

Lemma no_code_configured_never_refuses_witness :
  code_format (self (init (default_config "home/alarm/set" "home/alarm"))) = None /\
  snd (@handler plain_runtime alarm_trigger None
         (init (default_config "home/alarm/set" "home/alarm"))) =
    {| self := self (init (default_config "home/alarm/set" "home/alarm"));
       journal := [AsyncPublish "home/alarm/set" "TRIGGER" 0 false "utf-8"] |}.
Proof.
  split; [reflexivity|].
  exact (@no_code_configured_never_refuses plain_runtime alarm_trigger None
           (init (default_config "home/alarm/set" "home/alarm")) eq_refl).
Defined.

Lemma state_is_last_recognized_message_witness :
  In "disarmed" RECOGNIZED_STATES /\
  forallb (fun i => negb (@recognized plain_runtime panel i))
    [Call alarm_arm_away (Some "1"); Message "ringing"] = true /\
  _state (self (@run plain_runtime
                  ([Message "armed_home"; Call alarm_disarm None] ++
                   Message "disarmed" ::
                   [Call alarm_arm_away (Some "1"); Message "ringing"])
                  (init panel))) = Some "disarmed".
Proof.
  assert (Hin : In "disarmed" RECOGNIZED_STATES).
  { apply PyFacts.py_in_In. reflexivity. }
  split; [exact Hin|]. split; [reflexivity|].
  exact (proj1 (@state_is_last_recognized_message plain_runtime (init panel))
           [Message "armed_home"; Call alarm_disarm None]
           [Call alarm_arm_away (Some "1"); Message "ringing"]
           "disarmed" Hin eq_refl).
Defined.

Lemma repeated_message_notifies_again_witness :
  In "pending" RECOGNIZED_STATES /\
  self (@run plain_runtime [Message "pending"; Message "pending"] (init panel)) =
    self (@run plain_runtime [Message "pending"] (init panel)) /\
  journal (@run plain_runtime [Message "pending"; Message "pending"] (init panel)) =
    [AsyncWriteHaState (Some "pending"); AsyncWriteHaState (Some "pending")].
Proof.
  assert (Hin : In "pending" RECOGNIZED_STATES).
  { apply PyFacts.py_in_In. reflexivity. }
  split; [exact Hin|].
  exact (@repeated_message_notifies_again plain_runtime "pending" (init panel) Hin).
Defined.

Lemma digits_with_newline_need_the_newline_witness :
  let w := init (with_code (Some ("1234" ++ Re.newline)%string) true true true panel) in
  "1234" <> "" /\
  Re.all_digits "1234" = true /\
  CONF_CODE (_config (self w)) = Some ("1234" ++ Re.newline)%string /\
  code_required (_config (self w)) alarm_disarm = true /\
  code_format (self w) = Some NUMBER /\
  journal (snd (@handler plain_runtime alarm_disarm (Some "1234") w)) =
    [Warning "Wrong code entered for %s" "disarming"].
Proof.
  intros w.
  assert (Hne : "1234" <> "") by discriminate.
  destruct (@digits_with_newline_need_the_newline plain_runtime "1234" alarm_disarm w
              Hne eq_refl eq_refl eq_refl) as (Hfmt & Hrefused & _).
  repeat split; try assumption.
Defined.

Lemma available_is_monotone_witness :
  (1000 <= 2000)%Z /\
  (Vacuum.available (Vacuum.robot_seen 0%Z) 2000%Z = true ->
   Vacuum.available (Vacuum.robot_seen 0%Z) 1000%Z = true).
Proof.
  assert (Hle : (1000 <= 2000)%Z) by lia.
  split; [exact Hle|].
  exact (proj1 (proj2 (VacuumMore.available_is_monotone
                         (Vacuum.robot_seen 0%Z) 1000%Z 2000%Z Hle))).
Defined.

Lemma status_shows_sleeping_witness :
  Vacuum.is_sleeping
    {| Vacuum.status := Vacuum.READY; Vacuum.status_text := "Ready";
       Vacuum.last_seen := 0%Z; Vacuum.is_sleeping := true;
       Vacuum.sleep_mode_enabled := true; Vacuum.power_status := "AC" |} = true /\
  Vacuum.status_property
    {| Vacuum.status := Vacuum.READY; Vacuum.status_text := "Ready";
       Vacuum.last_seen := 0%Z; Vacuum.is_sleeping := true;
       Vacuum.sleep_mode_enabled := true; Vacuum.power_status := "AC" |} =
    "Ready (Sleeping)".
Proof.
  split; [reflexivity|].
  exact (proj1 (proj1 (proj2 (VacuumMore.status_shows_sleeping
           {| Vacuum.status := Vacuum.READY; Vacuum.status_text := "Ready";
              Vacuum.last_seen := 0%Z; Vacuum.is_sleeping := true;
              Vacuum.sleep_mode_enabled := true; Vacuum.power_status := "AC" |}
           (Vacuum.robot_seen 0%Z))) eq_refl)).
Defined.

End MoreExamples.
